(** * AndroidManifestExported: the export filter of [lib/extractor.js]

    A shallow embedding of the [ManifestExtractor] class over a small model
    of the JavaScript values that [xml2js] hands to it, followed by the
    properties of the filter.  The class exists in two variants: the
    refactored one ([_extractExportedComponents], [_extractComponentType],
    [_isComponentExported] and friends), which the development follows, and
    the earlier one ([extractExportedComponents],
    [isExportedOrHasIntentFilter]), kept in the module [Legacy].  The parser
    and the builder of [xml2js] and the file system are parameters of the
    pipeline. *)

From Stdlib Require Import String Ascii List Bool Arith Lia DecimalString.
Import ListNotations.
Local Open Scope list_scope.
Local Open Scope string_scope.
Set Warnings "-register-all".

(** ** JavaScript values

    [xml2js] (options [explicitArray: false], [mergeAttrs: false]) turns an
    element into a string when it has neither attributes nor child elements
    (the empty string for an empty element), and otherwise into an object
    whose key [$] holds the attribute object and whose other keys hold the
    children by tag name: one value for a tag that occurs once, an array for
    a tag that occurs several times.  Objects keep their keys in insertion
    order, so they are association lists here. *)

Inductive JsValue : Type :=
| JUndefined
| JNull
| JStr (s : string)
| JObj (props : list (string * JsValue))
| JArr (items : list JsValue).

(** What a failed run was rejected with. *)
Inductive Failure : Type :=
| TypeError (reading : string)   (* a read or write of property [reading] on
                                    undefined or null, or a call of a method
                                    that is not there *)
| ThrownError (message : string) (* [throw new Error(message)] *)
| IOFailure (diag : string)      (* rejection of [fs.readFile] / [fs.writeFile] *)
| ParseFailure (diag : string).  (* rejection of [parser.parseStringPromise] *)

Definition Result (A : Type) : Type := (Failure + A)%type.

Definition bindR {A B : Type} (r : Result A) (k : A -> Result B) : Result B :=
  match r with
  | inl e => inl e
  | inr a => k a
  end.

Notation "x <-? r ;; k" := (bindR r (fun x => k))
  (at level 61, r at next level, right associativity).

(** [Boolean(v)], and the test of [if (v)], [!v] and [v || w]. *)
Definition truthy (v : JsValue) : bool :=
  match v with
  | JUndefined | JNull => false
  | JStr s => negb (s =? "")
  | JObj _ | JArr _ => true
  end.

(** [a || b] *)
Definition orElse (a b : JsValue) : JsValue := if truthy a then a else b.

(** [v === 'literal'] *)
Definition strictEq (v : JsValue) (literal : string) : bool :=
  match v with
  | JStr s => s =? literal
  | _ => false
  end.

(** [Array.isArray(v)] *)
Definition isArray (v : JsValue) : bool :=
  match v with
  | JArr _ => true
  | _ => false
  end.

Fixpoint lookup (key : string) (props : list (string * JsValue)) : JsValue :=
  match props with
  | [] => JUndefined
  | (k, v) :: rest => if k =? key then v else lookup key rest
  end.

Definition hasKey (key : string) (props : list (string * JsValue)) : bool :=
  existsb (fun kv => fst kv =? key) props.

(** [v[key]] for the keys this program reads ([$], tag names and attribute
    names; never an index, [length] or a prototype member): undefined and
    null raise, strings and arrays have no such property. *)
Definition get (v : JsValue) (key : string) : Result JsValue :=
  match v with
  | JUndefined | JNull => inl (TypeError key)
  | JObj props => inr (lookup key props)
  | JStr _ | JArr _ => inr JUndefined
  end.

(** [v?.[key]] *)
Definition optGet (v : JsValue) (key : string) : JsValue :=
  match v with
  | JObj props => lookup key props
  | _ => JUndefined
  end.

(** [obj[key] = v] on association lists: an existing key keeps its place. *)
Fixpoint assign (key : string) (v : JsValue) (props : list (string * JsValue))
  : list (string * JsValue) :=
  match props with
  | [] => [(key, v)]
  | (k, w) :: rest =>
      if k =? key then (k, v) :: rest else (k, w) :: assign key v rest
  end.

(** [target[key] = v]; class bodies are strict code, so the assignment
    raises on undefined, null and strings.  The program only ever assigns to
    the objects it has built; an array target is left out of the model and
    rejected as well. *)
Definition set (target : JsValue) (key : string) (v : JsValue) : Result JsValue :=
  match target with
  | JObj props => inr (JObj (assign key v props))
  | _ => inl (TypeError key)
  end.

(** [delete obj[key]] *)
Definition delete (key : string) (props : list (string * JsValue))
  : list (string * JsValue) :=
  filter (fun kv => negb (fst kv =? key)) props.

(** [Object.keys(obj)] *)
Definition keys (props : list (string * JsValue)) : list string := map fst props.

(** [target[key].push(v)] *)
Definition push (target : JsValue) (key : string) (v : JsValue) : Result JsValue :=
  arr <-? get target key ;;
  match arr with
  | JArr items => set target key (JArr (items ++ [v])%list)
  | _ => inl (TypeError "push")
  end.

(** String conversion inside a template literal. *)
Fixpoint toString (v : JsValue) : string :=
  match v with
  | JUndefined => "undefined"
  | JNull => "null"
  | JStr s => s
  | JObj _ => "[object Object]"
  | JArr items =>
      let item (w : JsValue) : string :=
        match w with
        | JUndefined | JNull => ""
        | _ => toString w
        end in
      (fix join (ws : list JsValue) : string :=
         match ws with
         | [] => ""
         | [w] => item w
         | w :: rest => item w ++ "," ++ join rest
         end) items
  end.

(** ** Constants of the module *)

Module COMPONENT_TYPES.
Definition ACTIVITY : string := "activity".
Definition SERVICE : string := "service".
Definition RECEIVER : string := "receiver".
Definition PROVIDER : string := "provider".
End COMPONENT_TYPES.

Module ANDROID_ATTRIBUTES.
Definition EXPORTED : string := "android:exported".
Definition NAME : string := "android:name".
End ANDROID_ATTRIBUTES.

Definition COMPONENT_ICONS : list (string * JsValue) :=
  [ (COMPONENT_TYPES.ACTIVITY, JStr "📱");
    (COMPONENT_TYPES.SERVICE, JStr "🔧");
    (COMPONENT_TYPES.RECEIVER, JStr "📡");
    (COMPONENT_TYPES.PROVIDER, JStr "🗄️") ].

(** ** The classification predicate *)

Definition _isComponentExported (component : JsValue) : Result bool :=
  attrs <-? get component "$" ;;
  let exportedAttribute := optGet attrs ANDROID_ATTRIBUTES.EXPORTED in
  filters <-? get component "intent-filter" ;;
  let hasIntentFilter := truthy filters in
  if strictEq exportedAttribute "false" then inr false
  else
    let isExplicitlyExported := strictEq exportedAttribute "true" in
    inr (isExplicitlyExported || hasIntentFilter).

(** ** Runs that log

    A run of a method is the list of lines it passed to [console.log] and
    what it returned or raised; the lines logged before a failure stay. *)

Definition Run (A : Type) : Type := (list string * Result A)%type.

Definition ret {A : Type} (a : A) : Run A := ([], inr a).

Definition lift {A : Type} (r : Result A) : Run A := ([], r).

Definition bind {A B : Type} (c : Run A) (k : A -> Run B) : Run B :=
  match c with
  | (out, inl e) => (out, inl e)
  | (out, inr a) => let (out', r) := k a in ((out ++ out')%list, r)
  end.

Notation "x <- c ;; k" := (bind c (fun x => k))
  (at level 61, c at next level, right associativity).

Definition console_log (message : string) : Run unit := ([message], inr tt).

Definition _logIfVerbose (verbose : bool) (message : string) : Run unit :=
  if verbose then console_log message else ret tt.

(** [s.charAt(0).toUpperCase() + s.slice(1)] for a first character in ASCII,
    as the four kinds of [COMPONENT_TYPES] have it; the upper-casing of other
    characters is not modelled. *)
Definition toUpperCase (c : ascii) : ascii :=
  let n := nat_of_ascii c in
  if Nat.leb 97 n && Nat.leb n 122 then ascii_of_nat (n - 32) else c.

Definition capitalize (s : string) : string :=
  match s with
  | EmptyString => EmptyString
  | String c rest => String (toUpperCase c) rest
  end.

(** [_logComponentFound], for the kinds of [COMPONENT_TYPES], which are the
    ones [_extractComponentType] passes: [COMPONENT_ICONS[componentType]] is
    a lookup among the four own keys of the table, without the members an
    object inherits. *)
Definition _logComponentFound (componentType : string) (component : JsValue)
  : Run unit :=
  let icon := orElse (lookup componentType COMPONENT_ICONS) (JStr "🔧") in
  attrs <- lift (get component "$") ;;
  let name := orElse (optGet attrs ANDROID_ATTRIBUTES.NAME) (JStr "unnamed") in
  let typeLabel := capitalize componentType in
  console_log ("  " ++ toString icon ++ " " ++ typeLabel ++ ": " ++ toString name).

(** [Array.isArray(input) ? input : [input]], as the items of the array. *)
Definition _normalizeToArray (input : JsValue) : list JsValue :=
  match input with
  | JArr items => items
  | _ => [input]
  end.

Definition _createEmptyManifest (manifest : JsValue) : Result JsValue :=
  attrs <-? get manifest "$" ;;
  application <-? get manifest "application" ;;
  inr (JObj
         [ ("$", attrs);
           ("application",
             JObj [ ("$", orElse (optGet application "$") (JObj []));
                    (COMPONENT_TYPES.ACTIVITY, JArr []);
                    (COMPONENT_TYPES.SERVICE, JArr []);
                    (COMPONENT_TYPES.RECEIVER, JArr []);
                    (COMPONENT_TYPES.PROVIDER, JArr []) ]) ]).

(** The loop of [_preserveManifestPermissions] over its [permissionTypes];
    [target] is updated in place in the source and threaded here. *)
Fixpoint preservePermissionTypes (permissionTypes : list string)
    (source target : JsValue) : Result JsValue :=
  match permissionTypes with
  | [] => inr target
  | permissionType :: rest =>
      declared <-? get source permissionType ;;
      if truthy declared then
        target' <-? set target permissionType (JArr (_normalizeToArray declared)) ;;
        preservePermissionTypes rest source target'
      else preservePermissionTypes rest source target
  end.

Definition _preserveManifestPermissions (source target : JsValue)
  : Result JsValue :=
  preservePermissionTypes ["permission"; "uses-permission"] source target.

(** The [for (const component of components)] loop of
    [_extractComponentType]; it returns the updated [targetApp] and [found]. *)
Fixpoint extractComponents (componentType : string) (verbose : bool)
    (components : list JsValue) (targetApp : JsValue) (found : nat)
  : Run (JsValue * nat) :=
  match components with
  | [] => ret (targetApp, found)
  | component :: rest =>
      selected <- lift (_isComponentExported component) ;;
      if (selected : bool) then
        targetApp' <- lift (push targetApp componentType component) ;;
        _ <- (if verbose then _logComponentFound componentType component
              else ret tt) ;;
        extractComponents componentType verbose rest targetApp' (S found)
      else extractComponents componentType verbose rest targetApp found
  end.

Definition _extractComponentType (sourceApp targetApp : JsValue)
    (componentType : string) (verbose : bool) : Run (JsValue * nat) :=
  declared <- lift (get sourceApp componentType) ;;
  if negb (truthy declared) then ret (targetApp, 0)
  else extractComponents componentType verbose (_normalizeToArray declared)
         targetApp 0.

(** [_cleanupEmptyArrays]: the [forEach] over the keys the object had at the
    start, deleting from the live object.  The keys of a string are its
    indices, which hold characters; those of an array are its indices too,
    and a deleted item leaves a hole, which reads as undefined. *)
Definition isEmptyArray (v : JsValue) : bool :=
  match v with
  | JArr [] => true
  | _ => false
  end.

Definition cleanupKeys (ks : list string) (props : list (string * JsValue))
  : list (string * JsValue) :=
  fold_left
    (fun application key =>
       if isEmptyArray (lookup key application) then delete key application
       else application)
    ks props.

Definition _cleanupEmptyArrays (application : JsValue) : Result JsValue :=
  match application with
  | JObj props => inr (JObj (cleanupKeys (keys props) props))
  | JUndefined | JNull => inl (TypeError "keys")
  | JStr _ => inr application
  | JArr items =>
      inr (JArr (map (fun v => if isEmptyArray v then JUndefined else v) items))
  end.

Definition componentTypes : list string :=
  [ COMPONENT_TYPES.ACTIVITY; COMPONENT_TYPES.SERVICE;
    COMPONENT_TYPES.RECEIVER; COMPONENT_TYPES.PROVIDER ].

(** The [for (const componentType of componentTypes)] loop of
    [_extractExportedComponents]: [extractedManifest.application] is mutated
    through the alias [targetApp] in the source; here the updated object is
    stored back.  It returns the updated manifest and [totalFound]. *)
Fixpoint extractComponentTypes (types : list string) (verbose : bool)
    (manifest extractedManifest : JsValue) (totalFound : nat)
  : Run (JsValue * nat) :=
  match types with
  | [] => ret (extractedManifest, totalFound)
  | componentType :: rest =>
      sourceApp <- lift (get manifest "application") ;;
      targetApp <- lift (get extractedManifest "application") ;;
      r <- _extractComponentType sourceApp targetApp componentType verbose ;;
      extractedManifest' <- lift (set extractedManifest "application" (fst r)) ;;
      extractComponentTypes rest verbose manifest extractedManifest'
        (totalFound + snd r)
  end.

(** [`${n}`] for a count. *)
Definition showCount (n : nat) : string := NilZero.string_of_uint (Nat.to_uint n).

Definition foundMessage (totalFound : nat) : string :=
  "✅ Found " ++ showCount totalFound ++ " exported components".

Definition _extractExportedComponents (manifest : JsValue) (verbose : bool)
  : Run JsValue :=
  extractedManifest <- lift (_createEmptyManifest manifest) ;;
  extractedManifest <- lift (_preserveManifestPermissions manifest extractedManifest) ;;
  _ <- _logIfVerbose verbose "🔍 Searching for exported components..." ;;
  r <- extractComponentTypes componentTypes verbose manifest extractedManifest 0 ;;
  _ <- _logIfVerbose verbose (foundMessage (snd r)) ;;
  targetApp <- lift (get (fst r) "application") ;;
  cleaned <- lift (_cleanupEmptyArrays targetApp) ;;
  extractedManifest <- lift (set (fst r) "application" cleaned) ;;
  ret extractedManifest.

(** ** The earlier variant of the class

    [extractExportedComponents] with its four blocks written out and
    [isExportedOrHasIntentFilter]. *)

Module Legacy.

(** What [isExportedOrHasIntentFilter] returns: a boolean, or the value of
    the [intent-filter] entry itself, which [isExplicitlyExported ||
    hasIntentFilter] yields when the first operand is false. *)
Inductive Answer : Type :=
| Boolean (b : bool)
| Value (v : JsValue).

(** The test of [if (answer)]. *)
Definition answerTruthy (answer : Answer) : bool :=
  match answer with
  | Boolean b => b
  | Value v => truthy v
  end.

Definition isExportedOrHasIntentFilter (component : JsValue) : Result Answer :=
  attrs <-? get component "$" ;;
  let isExplicitlyExported :=
    strictEq (optGet attrs ANDROID_ATTRIBUTES.EXPORTED) "true" in
  hasIntentFilter <-? get component "intent-filter" ;;
  let isExplicitlyNotExported :=
    strictEq (optGet attrs ANDROID_ATTRIBUTES.EXPORTED) "false" in
  if isExplicitlyNotExported then inr (Boolean false)
  else if isExplicitlyExported then inr (Boolean true)
  else inr (Value hasIntentFilter).

(** The [for] loop of one block; [label] is the text the block logs before
    the name of a component. *)
Fixpoint extractLoop (componentType label : string) (verbose : bool)
    (components : list JsValue) (targetApp : JsValue) (totalFound : nat)
  : Run (JsValue * nat) :=
  match components with
  | [] => ret (targetApp, totalFound)
  | component :: rest =>
      selected <- lift (isExportedOrHasIntentFilter component) ;;
      if answerTruthy selected then
        targetApp' <- lift (push targetApp componentType component) ;;
        _ <- (if verbose then
                attrs <- lift (get component "$") ;;
                console_log
                  (label
                   ++ toString (orElse (optGet attrs ANDROID_ATTRIBUTES.NAME)
                                  (JStr "unnamed")))
              else ret tt) ;;
        extractLoop componentType label verbose rest targetApp' (S totalFound)
      else extractLoop componentType label verbose rest targetApp totalFound
  end.

(** One of the four blocks [if (manifest.application.kind) { ... }]. *)
Definition extractBlock (componentType label : string) (verbose : bool)
    (manifest : JsValue) (state : JsValue * nat) : Run (JsValue * nat) :=
  let (extractedManifest, totalFound) := state in
  sourceApp <- lift (get manifest "application") ;;
  declared <- lift (get sourceApp componentType) ;;
  if truthy declared then
    targetApp <- lift (get extractedManifest "application") ;;
    r <- extractLoop componentType label verbose (_normalizeToArray declared)
           targetApp totalFound ;;
    extractedManifest' <- lift (set extractedManifest "application" (fst r)) ;;
    ret (extractedManifest', snd r)
  else ret (extractedManifest, totalFound).

Definition extractExportedComponents (manifest : JsValue) (verbose : bool)
  : Run JsValue :=
  attrs <- lift (get manifest "$") ;;
  sourceApp <- lift (get manifest "application") ;;
  appAttrs <- lift (get sourceApp "$") ;;
  let extractedManifest :=
    JObj [ ("$", attrs);
           ("application",
             JObj [ ("$", orElse appAttrs (JObj []));
                    ("activity", JArr []);
                    ("service", JArr []);
                    ("receiver", JArr []);
                    ("provider", JArr []) ]) ] in
  extractedManifest <-
    lift (preservePermissionTypes ["permission"; "uses-permission"]
            manifest extractedManifest) ;;
  _ <- _logIfVerbose verbose "🔍 Searching for exported components..." ;;
  state <- extractBlock "activity" "  📱 Activity: " verbose manifest
             (extractedManifest, 0) ;;
  state <- extractBlock "service" "  🔧 Service: " verbose manifest state ;;
  state <- extractBlock "receiver" "  📡 Receiver: " verbose manifest state ;;
  state <- extractBlock "provider" "  🗄️  Provider: " verbose manifest state ;;
  _ <- _logIfVerbose verbose (foundMessage (snd state)) ;;
  targetApp <- lift (get (fst state) "application") ;;
  cleaned <- lift (_cleanupEmptyArrays targetApp) ;;
  extractedManifest <- lift (set (fst state) "application" cleaned) ;;
  ret extractedManifest.

End Legacy.

(** ** Parsed documents used as examples *)

Definition attributes (kvs : list (string * string)) : JsValue :=
  JObj (map (fun kv => (fst kv, JStr (snd kv))) kvs).

(** [<tag android:name=name android:exported=exported> children </tag>] *)
Definition component (name exported : string)
    (children : list (string * JsValue)) : JsValue :=
  JObj (("$", attributes [ (ANDROID_ATTRIBUTES.NAME, name);
                           (ANDROID_ATTRIBUTES.EXPORTED, exported) ])
        :: children).

Definition intentFilter (action : string) : JsValue :=
  JObj [ ("action", JObj [ ("$", attributes [ (ANDROID_ATTRIBUTES.NAME, action) ]) ]) ].

Definition namedElement (name : string) : JsValue :=
  JObj [ ("$", attributes [ (ANDROID_ATTRIBUTES.NAME, name) ]) ].

(** The end-to-end scenario: two activities, a service, a receiver, a
    provider, a [permission] and a [uses-permission] declaration, next to a
    [uses-sdk] element and a [meta-data] element that the filter ignores. *)
Definition scenarioManifest : JsValue :=
  JObj
    [ ("$", attributes [ ("package", "com.example") ]);
      ("uses-permission", namedElement "android.permission.RECEIVE_BOOT_COMPLETED");
      ("permission", namedElement "com.example.permission.READ_DATA");
      ("uses-sdk", JObj [ ("$", attributes [ ("android:minSdkVersion", "21") ]) ]);
      ("application",
        JObj
          [ ("$", attributes [ ("android:label", "Example") ]);
            ("meta-data", namedElement "com.example.API_KEY");
            ("activity",
              JArr [ component ".MainActivity" "false" [];
                     component ".ExportedActivity" "true"
                       [ ("intent-filter", intentFilter "android.intent.action.VIEW") ] ]);
            ("service", component ".BackgroundService" "false" []);
            ("receiver",
              component ".BootReceiver" "true"
                [ ("intent-filter",
                    intentFilter "android.intent.action.BOOT_COMPLETED") ]);
            ("provider", namedElement ".DataProvider") ]) ].

Definition scenarioOutput : JsValue :=
  JObj
    [ ("$", attributes [ ("package", "com.example") ]);
      ("application",
        JObj
          [ ("$", attributes [ ("android:label", "Example") ]);
            ("activity",
              JArr [ component ".ExportedActivity" "true"
                       [ ("intent-filter", intentFilter "android.intent.action.VIEW") ] ]);
            ("receiver",
              JArr [ component ".BootReceiver" "true"
                       [ ("intent-filter",
                           intentFilter "android.intent.action.BOOT_COMPLETED") ] ]) ]);
      ("permission", JArr [ namedElement "com.example.permission.READ_DATA" ]);
      ("uses-permission",
        JArr [ namedElement "android.permission.RECEIVE_BOOT_COMPLETED" ]) ].

(** ** What the filter computes, in closed form *)

(** A value a property can be read from. *)
Definition defined (v : JsValue) : bool :=
  match v with
  | JUndefined | JNull => false
  | _ => true
  end.

(** The predicate as a total test: a component is selected when
    [_isComponentExported] returns [true] on it. *)
Definition selects (component : JsValue) : bool :=
  match _isComponentExported component with
  | inr true => true
  | _ => false
  end.

(** The exported attribute of a component, [component.$?.['android:exported']]. *)
Definition exportedAttribute (component : JsValue) : JsValue :=
  optGet (optGet component "$") ANDROID_ATTRIBUTES.EXPORTED.

(** The components of one kind that [_extractComponentType] iterates over. *)
Definition declaredComponents (sourceApp : JsValue) (componentType : string)
  : list JsValue :=
  let declared := optGet sourceApp componentType in
  if truthy declared then _normalizeToArray declared else [].

Definition selectedComponents (manifest : JsValue) (componentType : string)
  : list JsValue :=
  filter selects (declaredComponents (optGet manifest "application") componentType).

(** The line [_logComponentFound] prints. *)
Definition componentLine (componentType : string) (component : JsValue) : string :=
  "  " ++ toString (orElse (lookup componentType COMPONENT_ICONS) (JStr "🔧"))
       ++ " " ++ capitalize componentType ++ ": "
       ++ toString (orElse (optGet (optGet component "$") ANDROID_ATTRIBUTES.NAME)
                      (JStr "unnamed")).

Definition kindEntry (componentType : string) (selected : list JsValue)
  : list (string * JsValue) :=
  match selected with
  | [] => []
  | _ => [(componentType, JArr selected)]
  end.

Definition permissionEntry (manifest : JsValue) (permissionType : string)
  : list (string * JsValue) :=
  let declared := optGet manifest permissionType in
  if truthy declared then [(permissionType, JArr (_normalizeToArray declared))]
  else [].

Definition applicationAttributes (manifest : JsValue) : JsValue :=
  orElse (optGet (optGet manifest "application") "$") (JObj []).

Definition attributesEntry (attrs : JsValue) : list (string * JsValue) :=
  if isEmptyArray attrs then [] else [("$", attrs)].

Definition filteredApplication (manifest : JsValue) : list (string * JsValue) :=
  (attributesEntry (applicationAttributes manifest)
   ++ kindEntry COMPONENT_TYPES.ACTIVITY (selectedComponents manifest COMPONENT_TYPES.ACTIVITY)
   ++ kindEntry COMPONENT_TYPES.SERVICE (selectedComponents manifest COMPONENT_TYPES.SERVICE)
   ++ kindEntry COMPONENT_TYPES.RECEIVER (selectedComponents manifest COMPONENT_TYPES.RECEIVER)
   ++ kindEntry COMPONENT_TYPES.PROVIDER (selectedComponents manifest COMPONENT_TYPES.PROVIDER))%list.

Definition filteredManifest (manifest : JsValue) : JsValue :=
  JObj (("$", optGet manifest "$")
        :: ("application", JObj (filteredApplication manifest))
        :: (permissionEntry manifest "permission"
            ++ permissionEntry manifest "uses-permission")%list).

(** The inputs on which no property is read from undefined or null: the
    manifest and its application are there, and so is every component the
    loops visit. *)
Definition extractable (manifest : JsValue) : bool :=
  defined manifest
  && defined (optGet manifest "application")
  && forallb
       (fun componentType =>
          forallb defined
            (declaredComponents (optGet manifest "application") componentType))
       componentTypes.

(** The number of components in a tree, over the four kinds. *)
Definition componentCount (tree : JsValue) : nat :=
  list_sum
    (map (fun componentType =>
            length (declaredComponents (optGet tree "application") componentType))
       componentTypes).

Definition verboseLines (manifest : JsValue) : list string :=
  ("🔍 Searching for exported components..."
   :: flat_map
        (fun componentType =>
           map (componentLine componentType)
             (selectedComponents manifest componentType))
        componentTypes
   ++ [ foundMessage
          (list_sum
             (map (fun componentType =>
                     length (selectedComponents manifest componentType))
                componentTypes)) ])%list.

(** What the extraction is rejected with when it is. *)
Definition extractionFailure (manifest : JsValue) : Failure :=
  if defined manifest && negb (defined (optGet manifest "application"))
  then TypeError COMPONENT_TYPES.ACTIVITY
  else TypeError "$".

(** What a key of the filtered application holds for a kind. *)
Definition arrayOrUndefined (selected : list JsValue) : JsValue :=
  match selected with
  | [] => JUndefined
  | _ => JArr selected
  end.

(** ** The pipeline of [extract]

    The file system, the [xml2js] parser and the [xml2js] builder are
    collaborators of the class: the file system is a state that [readFile]
    reads and [writeFile] replaces, and each of them answers with a
    diagnostic when it rejects. *)

Section PipelineModel.

Variable FileSystem : Type.
Variable readFile : FileSystem -> string -> string + string.
Variable writeFile : FileSystem -> string -> string -> string + FileSystem.
Variable parseStringPromise : string -> string + JsValue.
Variable buildObject : JsValue -> string.

(** An asynchronous method: it starts on a file system and ends with the
    file system it left, what it logged and what it resolved or rejected
    with. *)
Definition Async (A : Type) : Type := FileSystem -> FileSystem * Run A.

Definition await {A B : Type} (c : Async A) (k : A -> Async B) : Async B :=
  fun fs =>
    match c fs with
    | (fs1, (out, inl e)) => (fs1, (out, inl e))
    | (fs1, (out, inr a)) =>
        match k a fs1 with
        | (fs2, (out', r)) => (fs2, ((out ++ out')%list, r))
        end
    end.

Definition sync {A : Type} (c : Run A) : Async A := fun fs => (fs, c).

Definition NO_MANIFEST_MESSAGE : string :=
  "Invalid AndroidManifest.xml file - no manifest root element found".

Definition fs_readFile (path : string) : Async string :=
  fun fs =>
    match readFile fs path with
    | inl diag => (fs, ([], inl (IOFailure diag)))
    | inr content => (fs, ([], inr content))
    end.

(** A rejected write is modelled as leaving the files as they were;
    [fs.writeFile] may by then have created or truncated the file, which
    the file system of the model does not record. *)
Definition fs_writeFile (path content : string) : Async unit :=
  fun fs =>
    match writeFile fs path content with
    | inl diag => (fs, ([], inl (IOFailure diag)))
    | inr fs' => (fs', ([], inr tt))
    end.

Definition parser_parseStringPromise (xmlContent : string) : Async JsValue :=
  sync (lift (match parseStringPromise xmlContent with
              | inl diag => inl (ParseFailure diag)
              | inr result => inr result
              end)).

Definition _parseManifestFile (inputPath : string) : Async JsValue :=
  await (fs_readFile inputPath) (fun xmlContent =>
  await (parser_parseStringPromise xmlContent) (fun result =>
  if negb (truthy (optGet result "manifest"))
  then sync (lift (inl (ThrownError NO_MANIFEST_MESSAGE)))
  else sync (lift (get result "manifest")))).

Definition _writeOutputFile (outputPath : string) (manifest : JsValue)
  : Async unit :=
  let outputXml := buildObject manifest in
  fs_writeFile outputPath outputXml.

Definition extract (inputPath outputPath : string) (verbose : bool)
  : Async unit :=
  await (sync (_logIfVerbose verbose
                 ("📖 Reading AndroidManifest.xml from: " ++ inputPath))) (fun _ =>
  await (_parseManifestFile inputPath) (fun manifest =>
  await (sync (_extractExportedComponents manifest verbose)) (fun extractedManifest =>
  await (_writeOutputFile outputPath extractedManifest) (fun _ =>
  sync (_logIfVerbose verbose ("📝 Output written to: " ++ outputPath)))))).

End PipelineModel.

(** A small instance of the collaborators, to run the pipeline on: files
    are an association list from paths to contents; the parser answers as
    [xml2js] does on four texts (it resolves a blank text to null without
    rejecting it, and rejects an unclosed root) and rejects the rest; the
    builder prints the number of components. *)
Module Toy.

Definition FileSystem : Type := list (string * string).

Fixpoint readFile (fs : FileSystem) (path : string) : string + string :=
  match fs with
  | [] => inl ("ENOENT: no such file or directory, open '" ++ path ++ "'")
  | (p, content) :: rest => if p =? path then inr content else readFile rest path
  end.

Definition writeFile (fs : FileSystem) (path content : string)
  : string + FileSystem :=
  inr ((path, content) :: fs).

Definition parseStringPromise (xmlContent : string) : string + JsValue :=
  if xmlContent =? "" then inr JNull
  else if xmlContent =? "<root></root>" then inr (JObj [("root", JStr "")])
  else if xmlContent =? "<manifest><application/></manifest>"
  then inr (JObj [("manifest", JObj [("application", JStr "")])])
  else if xmlContent =? "<manifest><application>"
  then inl "Unclosed root tag"
  else inl "Non-whitespace before first tag.".

Definition buildObject (manifest : JsValue) : string :=
  "<manifest components=" ++ showCount (componentCount manifest) ++ "/>".

Definition disk : FileSystem :=
  [ ("blank.xml", "");
    ("broken.xml", "<manifest><application>");
    ("root.xml", "<root></root>");
    ("empty.xml", "<manifest><application/></manifest>") ].

Definition run (inputPath outputPath : string) (verbose : bool)
  : FileSystem * Run unit :=
  extract FileSystem readFile writeFile parseStringPromise buildObject
    inputPath outputPath verbose disk.

End Toy.

(** More parsed documents. *)

(** [<activity android:name=".ShareActivity"><intent-filter/></activity>]:
    the empty [intent-filter] element is parsed to the empty string. *)
Definition emptyFilterActivity : JsValue :=
  JObj [ ("$", attributes [ (ANDROID_ATTRIBUTES.NAME, ".ShareActivity") ]);
         ("intent-filter", JStr "") ].

(** The manifest whose application holds that activity and nothing else. *)
Definition emptyFilterManifest : JsValue :=
  JObj [ ("application", JObj [ ("activity", emptyFilterActivity) ]) ].

(** [<manifest package="com.example">
       <uses-permission android:name="android.permission.INTERNET"/>
     </manifest>]: a manifest without an [application] element. *)
Definition libraryManifest : JsValue :=
  JObj [ ("$", attributes [ ("package", "com.example") ]);
         ("uses-permission", namedElement "android.permission.INTERNET") ].

(** [<manifest package="com.example">
       <uses-permission/>
       <application android:label="Example"/>
     </manifest>]: the only [uses-permission] element has neither attributes
    nor content, so it is parsed to the empty string. *)
Definition barePermissionManifest : JsValue :=
  JObj [ ("$", attributes [ ("package", "com.example") ]);
         ("uses-permission", JStr "");
         ("application", JObj [ ("$", attributes [ ("android:label", "Example") ]) ]) ].

Definition barePermissionOutput : JsValue :=
  JObj [ ("$", attributes [ ("package", "com.example") ]);
         ("application", JObj [ ("$", attributes [ ("android:label", "Example") ]) ]) ].

(** The count reaches the caller of a run when the summary line that
    carries it is among the lines of the run. *)
Definition reportsCount {A : Type} (r : Run A) (n : nat) : Prop :=
  In (foundMessage n) (fst r).

(** Whether a key of the application object is one of the four kinds. *)
Definition isComponentType (key : string) : bool :=
  existsb (fun componentType => componentType =? key) componentTypes.

Definition isEmpty {A : Type} (l : list A) : bool :=
  match l with
  | [] => true
  | _ => false
  end.

(** A source in which the kinds are interleaved: a provider first, then the
    activities [A] (exported), [A2] (no filter) and [A3] (intent-filter),
    then a service that does not qualify. *)
Definition orderingManifest : JsValue :=
  JObj
    [ ("application",
        JObj
          [ ("provider", component ".P" "true" []);
            ("activity",
              JArr [ component ".A" "true" [];
                     namedElement ".A2";
                     JObj [ ("$", attributes [ (ANDROID_ATTRIBUTES.NAME, ".A3") ]);
                            ("intent-filter",
                              intentFilter "android.intent.action.SEND") ] ]);
            ("service", component ".S" "false" []) ]) ].

Definition orderingOutput : JsValue :=
  JObj
    [ ("$", JUndefined);
      ("application",
        JObj
          [ ("$", JObj []);
            ("activity",
              JArr [ component ".A" "true" [];
                     JObj [ ("$", attributes [ (ANDROID_ATTRIBUTES.NAME, ".A3") ]);
                            ("intent-filter",
                              intentFilter "android.intent.action.SEND") ] ]);
            ("provider", JArr [ component ".P" "true" [] ]) ]) ].

(** ** The earlier variant of [extract]

    It reads [result.manifest] without the optional chaining, and calls the
    earlier [extractExportedComponents]. *)

Module LegacyPipeline.

Section Pipeline.

Variable FileSystem : Type.
Variable readFile : FileSystem -> string -> string + string.
Variable writeFile : FileSystem -> string -> string -> string + FileSystem.
Variable parseStringPromise : string -> string + JsValue.
Variable buildObject : JsValue -> string.

Definition extract (inputPath outputPath : string) (verbose : bool)
  : Async FileSystem unit :=
  await FileSystem
    (sync FileSystem
       (if verbose
        then console_log ("📖 Reading AndroidManifest.xml from: " ++ inputPath)
        else ret tt)) (fun _ =>
  await FileSystem (fs_readFile FileSystem readFile inputPath) (fun xmlContent =>
  await FileSystem
    (parser_parseStringPromise FileSystem parseStringPromise xmlContent)
    (fun result =>
  await FileSystem (sync FileSystem (lift (get result "manifest"))) (fun manifest =>
  if negb (truthy manifest)
  then sync FileSystem
         (lift (inl (ThrownError
                       "Invalid AndroidManifest.xml file - no manifest root element found")))
  else
    await FileSystem
      (sync FileSystem (Legacy.extractExportedComponents manifest verbose))
      (fun extractedManifest =>
    let outputXml := buildObject extractedManifest in
    await FileSystem (fs_writeFile FileSystem writeFile outputPath outputXml) (fun _ =>
    sync FileSystem
      (if verbose
       then console_log ("📝 Output written to: " ++ outputPath)
       else ret tt))))))).

End Pipeline.

End LegacyPipeline.

(** ** The command of [bin/cli.js] *)

Definition DEFAULT_OUTPUT_FILE : string := "AndroidManifestExported.xml".

(** The options the command line parser hands to the action: [verbose] is
    undefined when the flag is not given. *)
Module Options.
Record t : Type := {
  output : string;
  verbose : option bool
}.
End Options.

(** What a run of the action leaves: the files, the lines printed with
    [console.log] and with [console.error], and the status passed to
    [process.exit], if it was called. *)
Record Process (FileSystem : Type) : Type := {
  files : FileSystem;
  stdout : list string;
  stderr : list string;
  exitCode : option nat
}.

Arguments files {FileSystem} _.
Arguments stdout {FileSystem} _.
Arguments stderr {FileSystem} _.
Arguments exitCode {FileSystem} _.

Section Cli.

Variable FileSystem : Type.
Variable readFile : FileSystem -> string -> string + string.
Variable writeFile : FileSystem -> string -> string -> string + FileSystem.
Variable parseStringPromise : string -> string + JsValue.
Variable buildObject : JsValue -> string.

(** The text the engine gives to the TypeError of a property access. *)
Variable typeErrorMessage : string -> string.

(** [error.message]; the diagnostic of a collaborator is the message of its
    rejection. *)
Definition message (error : Failure) : string :=
  match error with
  | TypeError reading => typeErrorMessage reading
  | ThrownError text => text
  | IOFailure diag => diag
  | ParseFailure diag => diag
  end.

(** [extractManifest]: the parameter [verbose = false] of [extract] takes
    its default when [options.verbose] is undefined. *)
Definition extractManifest (inputPath : string) (options : Options.t)
    (fs : FileSystem) : Process FileSystem :=
  let flag := match Options.verbose options with
              | Some given => given
              | None => false
              end in
  match extract FileSystem readFile writeFile parseStringPromise buildObject
          inputPath (Options.output options) flag fs with
  | (fs', (out, inr _)) =>
      {| files := fs';
         stdout :=
           (out ++ [("✅ Exported components extracted to "
                     ++ Options.output options)%string])%list;
         stderr := [];
         exitCode := None |}
  | (fs', (out, inl error)) =>
      {| files := fs';
         stdout := out;
         stderr := ["❌ Error: " ++ message error];
         exitCode := Some 1 |}
  end.

End Cli.

(** More of the small instance: the message of a TypeError, the action on
    the disk, and the earlier pipeline on the disk. *)
Module ToyCli.

Definition typeErrorMessage (reading : string) : string :=
  "Cannot read properties of undefined (reading '" ++ reading ++ "')".

Definition action (inputPath : string) (options : Options.t)
  : Process Toy.FileSystem :=
  extractManifest Toy.FileSystem Toy.readFile Toy.writeFile
    Toy.parseStringPromise Toy.buildObject typeErrorMessage
    inputPath options Toy.disk.

Definition legacyRun (inputPath outputPath : string) (verbose : bool)
  : Toy.FileSystem * Run unit :=
  LegacyPipeline.extract Toy.FileSystem Toy.readFile Toy.writeFile
    Toy.parseStringPromise Toy.buildObject inputPath outputPath verbose Toy.disk.

End ToyCli.

(** The four kinds, in the order of the output. *)
Definition kindOrder : list string :=
  [ "activity"; "service"; "receiver"; "provider" ].

(** The components of one kind in a parsed manifest, read off the document:
    none when the application has no element of that tag (or a single empty
    one, which is parsed to the empty string), the element when there is
    one, the elements in document order when there are several. *)
Definition sourceComponents (manifest : JsValue) (kind : string)
  : list JsValue :=
  match optGet (optGet manifest "application") kind with
  | JUndefined | JNull => []
  | JStr EmptyString => []
  | JArr items => items
  | single => [single]
  end.

(** The declarations under a permission key of a parsed manifest: the
    elements when there are several, the element when there is one. *)
Definition declarations (entry : JsValue) : list JsValue :=
  match entry with
  | JArr items => items
  | single => [single]
  end.

(** Whether an entry of an object holds something else than an empty
    array. *)
Definition keptEntry (entry : string * JsValue) : bool :=
  negb (isEmptyArray (snd entry)).

(** An activity whose exported attribute is written [True], with a filter,
    and one written [False], without. *)
Definition capitalTrueActivity : JsValue :=
  component ".Capital" "True"
    [ ("intent-filter", intentFilter "android.intent.action.MAIN") ].

Definition capitalFalseActivity : JsValue := component ".Capital" "False" [].

(** An application object as the cleanup may meet it. *)
Definition untidyApplication : list (string * JsValue) :=
  [ ("$", JObj []);
    ("activity", JArr []);
    ("service", JArr [ namedElement ".S" ]);
    ("receiver", JArr []);
    ("meta-data", JStr "") ].

(** ** Basic facts about the value operations *)

Lemma get_defined (v : JsValue) (key : string) :
  defined v = true -> get v key = inr (optGet v key).
Proof. destruct v; simpl; intros H; try discriminate; reflexivity. Qed.

Lemma get_undefined (v : JsValue) (key : string) :
  defined v = false -> get v key = inl (TypeError key).
Proof. destruct v; simpl; intros H; try discriminate; reflexivity. Qed.

Lemma lookup_assign (key : string) (v : JsValue) (props : list (string * JsValue)) :
  lookup key (assign key v props) = v.
Proof.
  induction props as [| [k w] rest IH]; simpl.
  - now rewrite String.eqb_refl.
  - destruct (k =? key) eqn:E; simpl; rewrite E; auto.
Qed.

Lemma assign_assign (key : string) (v w : JsValue) (props : list (string * JsValue)) :
  assign key w (assign key v props) = assign key w props.
Proof.
  induction props as [| [k u] rest IH]; simpl.
  - now rewrite String.eqb_refl.
  - destruct (k =? key) eqn:E; simpl; rewrite E; [reflexivity | now rewrite IH].
Qed.

Lemma bind_inr {A B : Type} (out : list string) (a : A) (k : A -> Run B) :
  bind (out, inr a) k = ((out ++ fst (k a))%list, snd (k a)).
Proof. unfold bind. now destruct (k a). Qed.

Lemma bind_inl {A B : Type} (out : list string) (e : Failure) (k : A -> Run B) :
  bind (out, inl e) k = (out, inl e).
Proof. reflexivity. Qed.

Lemma bind_lift_inr {A B : Type} (a : A) (k : A -> Run B) :
  bind (lift (inr a)) k = k a.
Proof. unfold lift, bind. now destruct (k a). Qed.

Lemma snd_bind {A B : Type} (c : Run A) (k : A -> Run B) :
  snd (bind c k) = bindR (snd c) (fun a => snd (k a)).
Proof.
  destruct c as [out [e | a]]; simpl; [reflexivity |].
  now destruct (k a).
Qed.

(** ** The classification predicate *)

Lemma isComponentExported_defined (component : JsValue) :
  defined component = true ->
  _isComponentExported component =
    inr (strictEq (exportedAttribute component) "true"
         || negb (strictEq (exportedAttribute component) "false")
            && truthy (optGet component "intent-filter")).
Proof.
  intros Hd. unfold _isComponentExported, exportedAttribute.
  rewrite !(get_defined _ _ Hd). simpl.
  destruct (optGet (optGet component "$") ANDROID_ATTRIBUTES.EXPORTED) as [| | s | |];
    simpl; try reflexivity.
  destruct (s =? "false") eqn:Ef; simpl; [| reflexivity].
  apply String.eqb_eq in Ef. subst s. reflexivity.
Qed.

Lemma isComponentExported_undefined (component : JsValue) :
  defined component = false ->
  _isComponentExported component = inl (TypeError "$").
Proof.
  intros Hd. unfold _isComponentExported. now rewrite (get_undefined _ _ Hd).
Qed.

Lemma selects_defined (component : JsValue) :
  selects component = true -> defined component = true.
Proof.
  unfold selects. destruct (defined component) eqn:Hd; [reflexivity |].
  now rewrite (isComponentExported_undefined _ Hd).
Qed.

Lemma isComponentExported_selects (component : JsValue) :
  defined component = true ->
  _isComponentExported component = inr (selects component).
Proof.
  intros Hd. unfold selects. rewrite (isComponentExported_defined _ Hd).
  now destruct (_ || _).
Qed.

Lemma logComponentFound_defined (componentType : string) (component : JsValue) :
  defined component = true ->
  _logComponentFound componentType component =
    ([componentLine componentType component], inr tt).
Proof.
  intros Hd. unfold _logComponentFound. rewrite (get_defined _ _ Hd).
  now rewrite bind_lift_inr.
Qed.

(** ** The loops *)

Lemma push_array (props : list (string * JsValue)) (key : string)
    (acc : list JsValue) (v : JsValue) :
  lookup key props = JArr acc ->
  push (JObj props) key v = inr (JObj (assign key (JArr (acc ++ [v])%list) props)).
Proof. intros H. unfold push. simpl. now rewrite H. Qed.

Lemma extractComponents_ok (componentType : string) (verbose : bool)
    (components : list JsValue) :
  forall (props : list (string * JsValue)) (acc : list JsValue) (found : nat),
    lookup componentType props = JArr acc ->
    forallb defined components = true ->
    extractComponents componentType verbose components (JObj props) found =
      ((if verbose
        then map (componentLine componentType) (filter selects components)
        else []),
       inr (JObj (assign componentType
                    (JArr (acc ++ filter selects components)%list) props),
            found + length (filter selects components))).
Proof.
  induction components as [| c rest IH]; intros props acc found Hacc Hall.
  - simpl. rewrite app_nil_r, Nat.add_0_r.
    assert (Hsame : assign componentType (JArr acc) props = props).
    { clear -Hacc. induction props as [| [k w] tl IHp]; simpl in *.
      - discriminate.
      - destruct (k =? componentType) eqn:E.
        + now subst w.
        + now rewrite IHp. }
    rewrite Hsame. now destruct verbose.
  - simpl in Hall. apply andb_true_iff in Hall as [Hc Hrest].
    cbn [extractComponents filter].
    rewrite (isComponentExported_selects _ Hc), bind_lift_inr.
    destruct (selects c) eqn:Hsel.
    + rewrite (push_array _ _ _ _ Hacc), bind_lift_inr.
      rewrite (IH _ (acc ++ [c])%list (S found) (lookup_assign _ _ _) Hrest).
      rewrite assign_assign, <- app_assoc. cbn [app length].
      rewrite <- Nat.add_succ_comm.
      destruct verbose.
      * rewrite (logComponentFound_defined _ _ Hc), bind_inr. reflexivity.
      * unfold ret. rewrite bind_inr. reflexivity.
    + now apply IH.
Qed.

Lemma extractComponents_fails (componentType : string) (verbose : bool)
    (components : list JsValue) :
  forall (props : list (string * JsValue)) (acc : list JsValue) (found : nat),
    lookup componentType props = JArr acc ->
    forallb defined components = false ->
    snd (extractComponents componentType verbose components (JObj props) found) =
      inl (TypeError "$").
Proof.
  induction components as [| c rest IH]; intros props acc found Hacc Hall.
  - discriminate.
  - cbn [extractComponents]. simpl in Hall.
    destruct (defined c) eqn:Hc.
    + simpl in Hall.
      rewrite (isComponentExported_selects _ Hc), bind_lift_inr.
      destruct (selects c).
      * rewrite (push_array _ _ _ _ Hacc), bind_lift_inr.
        rewrite snd_bind.
        destruct verbose;
          [rewrite (logComponentFound_defined _ _ Hc) |];
          exact (IH _ _ _ (lookup_assign _ _ _) Hall).
      * now apply (IH _ acc).
    + now rewrite (isComponentExported_undefined _ Hc).
Qed.

Lemma extractComponentType_ok (sourceApp : JsValue)
    (props : list (string * JsValue)) (componentType : string) (verbose : bool) :
  defined sourceApp = true ->
  lookup componentType props = JArr [] ->
  forallb defined (declaredComponents sourceApp componentType) = true ->
  _extractComponentType sourceApp (JObj props) componentType verbose =
    ((if verbose
      then map (componentLine componentType)
             (filter selects (declaredComponents sourceApp componentType))
      else []),
     inr (JObj (assign componentType
                  (JArr (filter selects (declaredComponents sourceApp componentType)))
                  props),
          length (filter selects (declaredComponents sourceApp componentType)))).
Proof.
  intros Hs Hacc Hall. unfold _extractComponentType.
  rewrite (get_defined _ _ Hs), bind_lift_inr.
  unfold declaredComponents in *.
  destruct (truthy (optGet sourceApp componentType)); cbn [negb].
  - exact (extractComponents_ok _ _ _ _ _ 0 Hacc Hall).
  - exact (extractComponents_ok _ _ [] _ _ 0 Hacc eq_refl).
Qed.

Lemma extractComponentType_fails (sourceApp : JsValue)
    (props : list (string * JsValue)) (componentType : string) (verbose : bool) :
  defined sourceApp = true ->
  lookup componentType props = JArr [] ->
  forallb defined (declaredComponents sourceApp componentType) = false ->
  snd (_extractComponentType sourceApp (JObj props) componentType verbose) =
    inl (TypeError "$").
Proof.
  intros Hs Hacc Hall. unfold _extractComponentType.
  rewrite (get_defined _ _ Hs), bind_lift_inr.
  unfold declaredComponents in *.
  destruct (truthy (optGet sourceApp componentType)); cbn [negb].
  - exact (extractComponents_fails _ _ _ _ _ 0 Hacc Hall).
  - discriminate.
Qed.

(** ** The whole extraction *)

Lemma preserveManifestPermissions_ok (manifest a b : JsValue) :
  defined manifest = true ->
  _preserveManifestPermissions manifest (JObj [("$", a); ("application", b)]) =
    inr (JObj (("$", a) :: ("application", b)
               :: (permissionEntry manifest "permission"
                   ++ permissionEntry manifest "uses-permission")%list)).
Proof.
  intros Hm. unfold _preserveManifestPermissions, permissionEntry.
  cbn [preservePermissionTypes]. rewrite !(get_defined _ _ Hm).
  cbn [bindR].
  destruct (truthy (optGet manifest "permission"));
    destruct (truthy (optGet manifest "uses-permission")); reflexivity.
Qed.

Lemma cleanupEmptyArrays_closed (attrs : JsValue) (la ls lr lp : list JsValue) :
  _cleanupEmptyArrays
    (JObj [ ("$", attrs);
            (COMPONENT_TYPES.ACTIVITY, JArr la);
            (COMPONENT_TYPES.SERVICE, JArr ls);
            (COMPONENT_TYPES.RECEIVER, JArr lr);
            (COMPONENT_TYPES.PROVIDER, JArr lp) ]) =
    inr (JObj (attributesEntry attrs
               ++ kindEntry COMPONENT_TYPES.ACTIVITY la
               ++ kindEntry COMPONENT_TYPES.SERVICE ls
               ++ kindEntry COMPONENT_TYPES.RECEIVER lr
               ++ kindEntry COMPONENT_TYPES.PROVIDER lp)%list).
Proof.
  destruct la, ls, lr, lp; destruct attrs as [| | s | props | [| w ws]];
    reflexivity.
Qed.

Lemma extractComponentTypes_step (componentType : string) (rest : list string)
    (verbose : bool) (manifest a : JsValue)
    (props perms : list (string * JsValue)) (total : nat) :
  defined manifest = true ->
  defined (optGet manifest "application") = true ->
  lookup componentType props = JArr [] ->
  forallb defined
    (declaredComponents (optGet manifest "application") componentType) = true ->
  extractComponentTypes (componentType :: rest) verbose manifest
    (JObj (("$", a) :: ("application", JObj props) :: perms)) total =
  bind
    ((if verbose
      then map (componentLine componentType)
             (selectedComponents manifest componentType)
      else []), inr tt)
    (fun _ =>
       extractComponentTypes rest verbose manifest
         (JObj (("$", a)
                :: ("application",
                     JObj (assign componentType
                             (JArr (selectedComponents manifest componentType))
                             props))
                :: perms))
         (total + length (selectedComponents manifest componentType))).
Proof.
  intros Hm Happ Hacc Hall. cbn [extractComponentTypes].
  rewrite (get_defined _ _ Hm), bind_lift_inr.
  change (get (JObj (("$", a) :: ("application", JObj props) :: perms)) "application")
    with (@inr Failure JsValue (JObj props)).
  rewrite bind_lift_inr.
  rewrite (extractComponentType_ok _ _ _ verbose Happ Hacc Hall).
  rewrite !bind_inr. cbn [fst snd].
  change (set (JObj (("$", a) :: ("application", JObj props) :: perms)) "application"
            (JObj (assign componentType
                     (JArr (filter selects
                              (declaredComponents (optGet manifest "application")
                                 componentType))) props)))
    with (@inr Failure JsValue
            (JObj (("$", a)
                   :: ("application",
                        JObj (assign componentType
                                (JArr (filter selects
                                         (declaredComponents
                                            (optGet manifest "application")
                                            componentType))) props))
                   :: perms))).
  rewrite bind_lift_inr. reflexivity.
Qed.

Lemma extractExportedComponents_ok (manifest : JsValue) (verbose : bool) :
  extractable manifest = true ->
  _extractExportedComponents manifest verbose =
    ((if verbose then verboseLines manifest else []),
     inr (filteredManifest manifest)).
Proof.
  unfold extractable, componentTypes. cbn [forallb].
  rewrite !andb_true_iff.
  intros [[Hm Happ] (Ha & Hs & Hr & Hp & _)].
  unfold _extractExportedComponents, _createEmptyManifest.
  rewrite !(get_defined _ _ Hm). cbn [bindR]. rewrite bind_lift_inr.
  rewrite (preserveManifestPermissions_ok _ _ _ Hm), bind_lift_inr.
  unfold componentTypes.
  rewrite extractComponentTypes_step; [| exact Hm | exact Happ | reflexivity | exact Ha].
  cbn [assign String.eqb Ascii.eqb Bool.eqb COMPONENT_TYPES.ACTIVITY
       COMPONENT_TYPES.SERVICE COMPONENT_TYPES.RECEIVER COMPONENT_TYPES.PROVIDER].
  rewrite extractComponentTypes_step; [| exact Hm | exact Happ | reflexivity | exact Hs].
  cbn [assign String.eqb Ascii.eqb Bool.eqb COMPONENT_TYPES.ACTIVITY
       COMPONENT_TYPES.SERVICE COMPONENT_TYPES.RECEIVER COMPONENT_TYPES.PROVIDER].
  rewrite extractComponentTypes_step; [| exact Hm | exact Happ | reflexivity | exact Hr].
  cbn [assign String.eqb Ascii.eqb Bool.eqb COMPONENT_TYPES.ACTIVITY
       COMPONENT_TYPES.SERVICE COMPONENT_TYPES.RECEIVER COMPONENT_TYPES.PROVIDER].
  rewrite extractComponentTypes_step; [| exact Hm | exact Happ | reflexivity | exact Hp].
  cbn [assign String.eqb Ascii.eqb Bool.eqb COMPONENT_TYPES.ACTIVITY
       COMPONENT_TYPES.SERVICE COMPONENT_TYPES.RECEIVER COMPONENT_TYPES.PROVIDER].
  cbn [extractComponentTypes]. unfold ret, _logIfVerbose, console_log.
  assert (Hsum : forall a b c d : nat, 0 + a + b + c + d = a + (b + (c + (d + 0))))
    by (intros; lia).
  destruct verbose; repeat (rewrite bind_inr; cbn [fst snd]);
    cbn [get lookup String.eqb Ascii.eqb Bool.eqb];
    repeat (rewrite bind_lift_inr; cbn [fst snd]);
    rewrite cleanupEmptyArrays_closed;
    repeat (rewrite bind_lift_inr; cbn [fst snd]);
    cbn [set assign String.eqb Ascii.eqb Bool.eqb];
    repeat (rewrite bind_lift_inr; cbn [fst snd]).
  - unfold verboseLines, componentTypes, filteredManifest, filteredApplication,
      applicationAttributes.
    cbn [flat_map map list_sum]. rewrite Hsum, !app_nil_r, <- !app_assoc.
    reflexivity.
  - reflexivity.
Qed.

Lemma extractComponentTypes_step_fails (componentType : string)
    (rest : list string) (verbose : bool) (manifest a : JsValue)
    (props perms : list (string * JsValue)) (total : nat) :
  defined manifest = true ->
  defined (optGet manifest "application") = true ->
  lookup componentType props = JArr [] ->
  forallb defined
    (declaredComponents (optGet manifest "application") componentType) = false ->
  snd (extractComponentTypes (componentType :: rest) verbose manifest
         (JObj (("$", a) :: ("application", JObj props) :: perms)) total) =
    inl (TypeError "$").
Proof.
  intros Hm Happ Hacc Hall. cbn [extractComponentTypes].
  rewrite (get_defined _ _ Hm), bind_lift_inr.
  change (get (JObj (("$", a) :: ("application", JObj props) :: perms)) "application")
    with (@inr Failure JsValue (JObj props)).
  rewrite bind_lift_inr, snd_bind.
  now rewrite (extractComponentType_fails _ _ _ verbose Happ Hacc Hall).
Qed.

Lemma extractExportedComponents_fails (manifest : JsValue) (verbose : bool) :
  extractable manifest = false ->
  snd (_extractExportedComponents manifest verbose) =
    inl (extractionFailure manifest).
Proof.
  unfold extractable, extractionFailure, componentTypes. cbn [forallb].
  intros Hex.
  destruct (defined manifest) eqn:Hm; cbn [andb negb] in *.
  2:{ unfold _extractExportedComponents, _createEmptyManifest.
      now rewrite (get_undefined _ _ Hm). }
  unfold _extractExportedComponents, _createEmptyManifest.
  rewrite !(get_defined _ _ Hm). cbn [bindR]. rewrite bind_lift_inr.
  rewrite (preserveManifestPermissions_ok _ _ _ Hm), bind_lift_inr.
  rewrite snd_bind.
  assert (Hlog : snd (_logIfVerbose verbose "🔍 Searching for exported components...")
                 = inr tt) by now destruct verbose.
  destruct verbose; cbn [_logIfVerbose console_log ret snd bindR];
    rewrite snd_bind; clear Hlog.
  all: destruct (defined (optGet manifest "application")) eqn:Happ;
    cbn [andb negb] in *;
    [| unfold componentTypes; cbn [extractComponentTypes];
       rewrite (get_defined _ _ Hm), bind_lift_inr;
       cbn [get lookup String.eqb Ascii.eqb Bool.eqb]; rewrite bind_lift_inr;
       unfold _extractComponentType;
       now rewrite (get_undefined _ _ Happ) ].
  all: unfold componentTypes.
  all: destruct (forallb defined (declaredComponents _ COMPONENT_TYPES.ACTIVITY)) eqn:Ha;
    [| now rewrite extractComponentTypes_step_fails ].
  all: rewrite extractComponentTypes_step; [| exact Hm | exact Happ | reflexivity | exact Ha];
    rewrite snd_bind; cbn [snd bindR];
    cbn [assign String.eqb Ascii.eqb Bool.eqb COMPONENT_TYPES.ACTIVITY
         COMPONENT_TYPES.SERVICE COMPONENT_TYPES.RECEIVER COMPONENT_TYPES.PROVIDER].
  all: destruct (forallb defined (declaredComponents _ COMPONENT_TYPES.SERVICE)) eqn:Hs;
    [| now rewrite extractComponentTypes_step_fails ].
  all: rewrite extractComponentTypes_step; [| exact Hm | exact Happ | reflexivity | exact Hs];
    rewrite snd_bind; cbn [snd bindR];
    cbn [assign String.eqb Ascii.eqb Bool.eqb COMPONENT_TYPES.ACTIVITY
         COMPONENT_TYPES.SERVICE COMPONENT_TYPES.RECEIVER COMPONENT_TYPES.PROVIDER].
  all: destruct (forallb defined (declaredComponents _ COMPONENT_TYPES.RECEIVER)) eqn:Hr;
    [| now rewrite extractComponentTypes_step_fails ].
  all: rewrite extractComponentTypes_step; [| exact Hm | exact Happ | reflexivity | exact Hr];
    rewrite snd_bind; cbn [snd bindR];
    cbn [assign String.eqb Ascii.eqb Bool.eqb COMPONENT_TYPES.ACTIVITY
         COMPONENT_TYPES.SERVICE COMPONENT_TYPES.RECEIVER COMPONENT_TYPES.PROVIDER].
  all: destruct (forallb defined (declaredComponents _ COMPONENT_TYPES.PROVIDER)) eqn:Hp;
    [ discriminate | now rewrite extractComponentTypes_step_fails ].
Qed.

Lemma extractExportedComponents_result (manifest : JsValue) (verbose : bool) :
  snd (_extractExportedComponents manifest verbose) =
    if extractable manifest then inr (filteredManifest manifest)
    else inl (extractionFailure manifest).
Proof.
  destruct (extractable manifest) eqn:Hex.
  - now rewrite (extractExportedComponents_ok _ _ Hex).
  - now apply extractExportedComponents_fails.
Qed.

(** X6. The extraction returns a tree exactly on the [extractable]
    manifests: those that are there, whose application is there, and in
    which every component the four loops visit is there. *)
Lemma extractExportedComponents_returns_iff (manifest : JsValue) (verbose : bool) :
  (exists tree, snd (_extractExportedComponents manifest verbose) = inr tree)
  <-> extractable manifest = true.
Proof.
  rewrite extractExportedComponents_result.
  destruct (extractable manifest); split; intros H; try reflexivity.
  - now exists (filteredManifest manifest).
  - now destruct H.
  - discriminate.
Qed.

(** ** The shape of the filtered application *)

Lemma lookup_kind_entries (attrs : JsValue) (la ls lr lp : list JsValue) :
  let props :=
    (attributesEntry attrs
     ++ kindEntry COMPONENT_TYPES.ACTIVITY la
     ++ kindEntry COMPONENT_TYPES.SERVICE ls
     ++ kindEntry COMPONENT_TYPES.RECEIVER lr
     ++ kindEntry COMPONENT_TYPES.PROVIDER lp)%list in
  lookup COMPONENT_TYPES.ACTIVITY props = arrayOrUndefined la
  /\ lookup COMPONENT_TYPES.SERVICE props = arrayOrUndefined ls
  /\ lookup COMPONENT_TYPES.RECEIVER props = arrayOrUndefined lr
  /\ lookup COMPONENT_TYPES.PROVIDER props = arrayOrUndefined lp
  /\ (isEmptyArray attrs = false -> lookup "$" props = attrs).
Proof.
  unfold attributesEntry.
  destruct (isEmptyArray attrs); destruct la, ls, lr, lp; cbn;
    repeat split; intros; try reflexivity; discriminate.
Qed.

Lemma sourceComponents_declared (manifest : JsValue) (kind : string) :
  sourceComponents manifest kind
  = declaredComponents (optGet manifest "application") kind.
Proof.
  unfold sourceComponents, declaredComponents.
  destruct (optGet (optGet manifest "application") kind) as [| | s | |];
    try reflexivity.
  now destruct s.
Qed.

Lemma declaredComponents_array (props : list (string * JsValue))
    (componentType : string) (selected : list JsValue) :
  lookup componentType props = arrayOrUndefined selected ->
  declaredComponents (JObj props) componentType = selected.
Proof.
  unfold declaredComponents. cbn [optGet]. intros ->.
  now destruct selected.
Qed.

Lemma declaredComponents_filtered (manifest : JsValue) (componentType : string) :
  In componentType componentTypes ->
  declaredComponents (optGet (filteredManifest manifest) "application") componentType
  = selectedComponents manifest componentType.
Proof.
  intros Hin. change (optGet (filteredManifest manifest) "application")
    with (JObj (filteredApplication manifest)).
  apply declaredComponents_array.
  destruct (lookup_kind_entries (applicationAttributes manifest)
              (selectedComponents manifest COMPONENT_TYPES.ACTIVITY)
              (selectedComponents manifest COMPONENT_TYPES.SERVICE)
              (selectedComponents manifest COMPONENT_TYPES.RECEIVER)
              (selectedComponents manifest COMPONENT_TYPES.PROVIDER))
    as (Ha & Hs & Hr & Hp & _).
  unfold componentTypes in Hin. cbn [In] in Hin.
  destruct Hin as [<- | [<- | [<- | [<- | []]]]]; assumption.
Qed.

Lemma filter_filter_same {A : Type} (f : A -> bool) (l : list A) :
  filter f (filter f l) = filter f l.
Proof.
  induction l as [| x l IH]; simpl; [reflexivity |].
  destruct (f x) eqn:E; simpl; [rewrite E; now f_equal | exact IH].
Qed.

Lemma forallb_defined_selected (l : list JsValue) :
  forallb defined (filter selects l) = true.
Proof.
  apply forallb_forall. intros c Hc. apply filter_In in Hc as [_ Hc].
  now apply selects_defined.
Qed.

Lemma componentCount_filtered (manifest : JsValue) :
  componentCount (filteredManifest manifest) =
    list_sum (map (fun componentType =>
                     length (selectedComponents manifest componentType))
                componentTypes).
Proof.
  unfold componentCount. f_equal. apply map_ext_in.
  intros kind Hin. now rewrite declaredComponents_filtered.
Qed.

(** ** Running the filter on its own output *)

Lemma selectedComponents_filtered (manifest : JsValue) (componentType : string) :
  In componentType componentTypes ->
  selectedComponents (filteredManifest manifest) componentType
  = selectedComponents manifest componentType.
Proof.
  intros Hin. unfold selectedComponents at 1.
  rewrite (declaredComponents_filtered _ _ Hin).
  apply filter_filter_same.
Qed.

Lemma truthy_applicationAttributes (manifest : JsValue) :
  truthy (applicationAttributes manifest) = true.
Proof.
  unfold applicationAttributes, orElse.
  now destruct (truthy (optGet (optGet manifest "application") "$")) eqn:E.
Qed.

Lemma applicationAttributes_filtered (manifest : JsValue) :
  isEmptyArray (applicationAttributes manifest) = false ->
  applicationAttributes (filteredManifest manifest) = applicationAttributes manifest.
Proof.
  intros Hne. unfold applicationAttributes at 1.
  change (optGet (filteredManifest manifest) "application")
    with (JObj (filteredApplication manifest)).
  cbn [optGet].
  destruct (lookup_kind_entries (applicationAttributes manifest)
              (selectedComponents manifest COMPONENT_TYPES.ACTIVITY)
              (selectedComponents manifest COMPONENT_TYPES.SERVICE)
              (selectedComponents manifest COMPONENT_TYPES.RECEIVER)
              (selectedComponents manifest COMPONENT_TYPES.PROVIDER))
    as (_ & _ & _ & _ & Hattrs).
  unfold filteredApplication. rewrite (Hattrs Hne).
  unfold orElse at 1. now rewrite truthy_applicationAttributes.
Qed.

Lemma permissionEntries_filtered (manifest : JsValue) :
  permissionEntry (filteredManifest manifest) "permission"
  = permissionEntry manifest "permission"
  /\ permissionEntry (filteredManifest manifest) "uses-permission"
     = permissionEntry manifest "uses-permission".
Proof.
  unfold filteredManifest, permissionEntry.
  destruct (truthy (optGet manifest "permission"));
    destruct (truthy (optGet manifest "uses-permission")); cbn; split; reflexivity.
Qed.

Lemma extractable_filtered (manifest : JsValue) :
  extractable (filteredManifest manifest) = true.
Proof.
  unfold extractable. cbn [defined filteredManifest optGet lookup
    String.eqb Ascii.eqb Bool.eqb andb].
  apply forallb_forall. intros kind Hin.
  pose proof (declaredComponents_filtered manifest kind Hin) as H.
  change (optGet (filteredManifest manifest) "application")
    with (JObj (filteredApplication manifest)) in H.
  rewrite H. apply forallb_defined_selected.
Qed.

Lemma filteredManifest_idempotent (manifest : JsValue) :
  isEmptyArray (applicationAttributes manifest) = false ->
  filteredManifest (filteredManifest manifest) = filteredManifest manifest.
Proof.
  intros Hne. unfold filteredManifest at 1, filteredApplication.
  rewrite (applicationAttributes_filtered _ Hne).
  rewrite !selectedComponents_filtered by (unfold componentTypes; cbn; tauto).
  destruct (permissionEntries_filtered manifest) as [-> ->].
  reflexivity.
Qed.

(** ** What holds of the predicate and of the copied parts *)

(** X3. A component whose exported attribute is the string [false] is never
    selected, whatever else it holds, intent filters included. *)
Lemma exported_false_never_selected (component : JsValue) :
  strictEq (exportedAttribute component) "false" = true ->
  selects component = false.
Proof.
  intros Hfalse. unfold selects.
  destruct (defined component) eqn:Hd.
  - rewrite (isComponentExported_defined _ Hd), Hfalse.
    destruct (exportedAttribute component) as [| | s | |]; try discriminate.
    cbn in Hfalse. apply String.eqb_eq in Hfalse. now subst s.
  - now rewrite (isComponentExported_undefined _ Hd).
Qed.

(** X2. A component whose exported attribute is the string [true] is
    selected, with or without an intent filter, and the predicate does not
    raise on it. *)
Lemma exported_true_always_selected (component : JsValue) :
  strictEq (exportedAttribute component) "true" = true ->
  _isComponentExported component = inr true.
Proof.
  intros Htrue.
  assert (Hd : defined component = true)
    by (destruct component; try discriminate; reflexivity).
  now rewrite (isComponentExported_defined _ Hd), Htrue.
Qed.

(** X4. On a component that is there and whose exported attribute is neither
    the string [true] nor the string [false] (absent, or written [True], or
    not a string), the predicate answers the truthiness of the
    [intent-filter] entry. *)
Lemma exported_unset_selected_by_filter (component : JsValue) :
  defined component = true ->
  strictEq (exportedAttribute component) "true" = false ->
  strictEq (exportedAttribute component) "false" = false ->
  _isComponentExported component
  = inr (truthy (optGet component "intent-filter")).
Proof.
  intros Hd Htrue Hfalse.
  now rewrite (isComponentExported_defined _ Hd), Htrue, Hfalse.
Qed.

(** X8. On every manifest that is there and has no application (undefined
    or null), the extraction raises the TypeError of reading the first kind
    from it, whatever the verbosity. *)
Lemma absent_application_raises (manifest : JsValue) (verbose : bool) :
  defined manifest = true ->
  defined (optGet manifest "application") = false ->
  snd (_extractExportedComponents manifest verbose)
  = inl (TypeError COMPONENT_TYPES.ACTIVITY).
Proof.
  intros Hm Happ.
  rewrite extractExportedComponents_fails.
  - unfold extractionFailure. now rewrite Hm, Happ.
  - unfold extractable. now rewrite Hm, Happ.
Qed.

(** X10. On every [extractable] manifest the extraction returns a tree that
    holds the manifest's attribute entry unchanged, the application's
    attribute entry (an empty object when the source has none; the entry is
    taken not to be an empty array), every selected component of the
    document itself, in the array of its kind, and, for [permission] and
    [uses-permission], the array of the document's declarations when the
    source entry is truthy. *)
Lemma copied_parts (manifest : JsValue) (verbose : bool) :
  extractable manifest = true ->
  exists tree,
    snd (_extractExportedComponents manifest verbose) = inr tree
    /\ optGet tree "$" = optGet manifest "$"
    /\ (isEmptyArray (applicationAttributes manifest) = false ->
        optGet (optGet tree "application") "$" = applicationAttributes manifest)
    /\ (forall kind component,
           In kind kindOrder ->
           In component (sourceComponents manifest kind) ->
           selects component = true ->
           exists items,
             optGet (optGet tree "application") kind = JArr items
             /\ In component items)
    /\ (forall permissionType,
           In permissionType ["permission"; "uses-permission"] ->
           truthy (optGet manifest permissionType) = true ->
           optGet tree permissionType
           = JArr (declarations (optGet manifest permissionType))).
Proof.
  intros Hex. exists (filteredManifest manifest).
  split; [now rewrite (extractExportedComponents_ok _ _ Hex) |].
  split; [reflexivity |].
  split.
  { intros Hattrs.
    change (optGet (filteredManifest manifest) "application")
      with (JObj (filteredApplication manifest)).
    unfold filteredApplication. cbn [optGet]. now apply lookup_kind_entries. }
  split.
  { intros kind c Hkind Hc Hsel.
    rewrite sourceComponents_declared in Hc.
    assert (Hin : In c (selectedComponents manifest kind))
      by (apply filter_In; now split).
    exists (selectedComponents manifest kind). split; [| exact Hin].
    change (optGet (filteredManifest manifest) "application")
      with (JObj (filteredApplication manifest)).
    cbn [optGet].
    destruct (lookup_kind_entries (applicationAttributes manifest)
                (selectedComponents manifest COMPONENT_TYPES.ACTIVITY)
                (selectedComponents manifest COMPONENT_TYPES.SERVICE)
                (selectedComponents manifest COMPONENT_TYPES.RECEIVER)
                (selectedComponents manifest COMPONENT_TYPES.PROVIDER))
      as (Ha & Hs & Hr & Hp & _).
    unfold kindOrder in Hkind. cbn [In] in Hkind.
    unfold filteredApplication.
    unfold COMPONENT_TYPES.ACTIVITY, COMPONENT_TYPES.SERVICE,
      COMPONENT_TYPES.RECEIVER, COMPONENT_TYPES.PROVIDER in *.
    destruct Hkind as [<- | [<- | [<- | [<- | []]]]];
      [rewrite Ha | rewrite Hs | rewrite Hr | rewrite Hp];
      (destruct (selectedComponents manifest _); [destruct Hin | reflexivity]). }
  intros k Hk Ht. cbn [In] in Hk.
  unfold filteredManifest, permissionEntry.
  destruct Hk as [<- | [<- | []]]; rewrite ?Ht.
  - reflexivity.
  - destruct (truthy (optGet manifest "permission")); reflexivity.
Qed.

(** ** The claims *)

(** C1. The predicate on a component whose exported attribute is unset and
    that owns an [intent-filter] child: when that child is an empty element
    ([<intent-filter/>], parsed to the empty string) the component has the
    [intent-filter] key, no exported attribute, and [_isComponentExported]
    answers [false], because it tests the truthiness of the entry instead of
    its presence; the extraction then returns an application without that
    activity. *)
Theorem isComponentExported_empty_intent_filter :
  optGet emptyFilterActivity "intent-filter" = JStr ""
  /\ exportedAttribute emptyFilterActivity = JUndefined
  /\ _isComponentExported emptyFilterActivity = inr false
  /\ snd (_extractExportedComponents emptyFilterManifest false)
     = inr (JObj [ ("$", JUndefined); ("application", JObj [ ("$", JObj []) ]) ]).
Proof. repeat split. Qed.

(** C2. On a manifest without an application element the extraction does not
    return: after the empty manifest is created and the permissions are
    copied, [_extractComponentType] reads [sourceApp[componentType]] from
    undefined and the run ends with a TypeError, whatever the verbosity.  The
    earlier variant of the method fails sooner, at [manifest.application.$]
    in its object literal. *)
Theorem extractExportedComponents_absent_application :
  optGet libraryManifest "application" = JUndefined
  /\ (exists tree, _createEmptyManifest libraryManifest = inr tree)
  /\ _extractExportedComponents libraryManifest false =
       ([], inl (TypeError COMPONENT_TYPES.ACTIVITY))
  /\ _extractExportedComponents libraryManifest true =
       (["🔍 Searching for exported components..."],
        inl (TypeError COMPONENT_TYPES.ACTIVITY))
  /\ (forall verbose,
         Legacy.extractExportedComponents libraryManifest verbose =
           ([], inl (TypeError "$"))).
Proof.
  split; [reflexivity |]. split; [eexists; reflexivity |].
  split; [reflexivity |]. split; [reflexivity |].
  intros verbose. reflexivity.
Qed.

(** C7. A manifest whose only [uses-permission] element is empty: the
    declaration is in the input, the extraction returns, and the tree it
    returns has no [uses-permission] entry, because
    [_preserveManifestPermissions] copies an entry only when it is truthy. *)
Theorem preserveManifestPermissions_drops_bare_element :
  optGet barePermissionManifest "uses-permission" = JStr ""
  /\ snd (_extractExportedComponents barePermissionManifest false)
     = inr barePermissionOutput
  /\ snd (_extractExportedComponents barePermissionManifest true)
     = inr barePermissionOutput
  /\ optGet barePermissionOutput "uses-permission" = JUndefined.
Proof. repeat split. Qed.

(** C3. Idempotence: when the filter returns a tree, the filter run on that
    tree returns the same tree, whatever the verbosity of either run.  The
    application's attribute entry is taken not to be an empty array (it is
    an object or absent in a parsed document). *)
Theorem extractExportedComponents_idempotent
    (manifest tree : JsValue) (verbose verbose' : bool) :
  isEmptyArray (applicationAttributes manifest) = false ->
  snd (_extractExportedComponents manifest verbose) = inr tree ->
  snd (_extractExportedComponents tree verbose') = inr tree.
Proof.
  intros Hattrs Hrun.
  rewrite extractExportedComponents_result in Hrun.
  destruct (extractable manifest); [| discriminate].
  injection Hrun as <-.
  rewrite extractExportedComponents_result, extractable_filtered.
  now rewrite filteredManifest_idempotent.
Qed.

Lemma extractExportedComponents_idempotent_witness :
  isEmptyArray (applicationAttributes scenarioManifest) = false
  /\ snd (_extractExportedComponents scenarioManifest true) = inr scenarioOutput
  /\ snd (_extractExportedComponents scenarioOutput false) = inr scenarioOutput.
Proof.
  split; [reflexivity |]. split; [reflexivity |].
  apply (extractExportedComponents_idempotent scenarioManifest scenarioOutput true false);
    reflexivity.
Defined.

(** C4, as the claim has it, fails: the extraction returns the tree and
    nothing else, so a run that is not verbose reports no count.  On the
    scenario such a run returns the expected tree, which holds two
    components, and logs nothing: no count reaches the caller. *)
Lemma extractExportedComponents_reports_no_count :
  snd (_extractExportedComponents scenarioManifest false) = inr scenarioOutput
  /\ componentCount scenarioOutput = 2
  /\ fst (_extractExportedComponents scenarioManifest false) = []
  /\ forall n, ~ reportsCount (_extractExportedComponents scenarioManifest false) n.
Proof.
  repeat split. intros n H. exact H.
Qed.

(** C4, amended. The extraction returns the filtered tree only.  The total
    of qualifying components over the four kinds is reported by a verbose
    run in its last line, the summary, and it is the number of components
    in the returned tree; a run that is not verbose logs nothing.  In the
    scenario the tree holds two components and the summary says 2. *)
Theorem summary_line_counts_returned_components :
  (forall manifest verbose,
      extractable manifest = true ->
      exists lines tree,
        _extractExportedComponents manifest verbose =
          ((if verbose
            then (lines ++ [foundMessage (componentCount tree)])%list
            else []),
           inr tree))
  /\ componentCount scenarioOutput = 2
  /\ snd (_extractExportedComponents scenarioManifest true) = inr scenarioOutput
  /\ last (fst (_extractExportedComponents scenarioManifest true)) ""
     = "✅ Found 2 exported components".
Proof.
  split; [| repeat split].
  intros manifest verbose Hex.
  exists (removelast (verboseLines manifest)), (filteredManifest manifest).
  rewrite (extractExportedComponents_ok _ _ Hex).
  destruct verbose; [| reflexivity].
  f_equal. rewrite componentCount_filtered. unfold verboseLines.
  rewrite app_comm_cons, removelast_last. reflexivity.
Qed.

Lemma summary_line_counts_returned_components_witness :
  extractable scenarioManifest = true
  /\ exists lines tree,
       _extractExportedComponents scenarioManifest true =
         ((lines ++ [foundMessage (componentCount tree)])%list, inr tree).
Proof.
  split; [reflexivity |].
  exact (proj1 summary_line_counts_returned_components scenarioManifest true eq_refl).
Defined.

Lemma keys_kind_entries (attrs : JsValue) (la ls lr lp : list JsValue) :
  keys (attributesEntry attrs
        ++ kindEntry COMPONENT_TYPES.ACTIVITY la
        ++ kindEntry COMPONENT_TYPES.SERVICE ls
        ++ kindEntry COMPONENT_TYPES.RECEIVER lr
        ++ kindEntry COMPONENT_TYPES.PROVIDER lp)%list
  = ((if isEmptyArray attrs then [] else ["$"])
     ++ (if isEmpty la then [] else [COMPONENT_TYPES.ACTIVITY])
     ++ (if isEmpty ls then [] else [COMPONENT_TYPES.SERVICE])
     ++ (if isEmpty lr then [] else [COMPONENT_TYPES.RECEIVER])
     ++ (if isEmpty lp then [] else [COMPONENT_TYPES.PROVIDER]))%list.
Proof.
  unfold attributesEntry.
  destruct (isEmptyArray attrs); destruct la, ls, lr, lp; reflexivity.
Qed.

Lemma kinds_of_filteredApplication (manifest : JsValue) :
  filter isComponentType (keys (filteredApplication manifest))
  = filter (fun componentType =>
              negb (isEmpty (selectedComponents manifest componentType)))
      componentTypes.
Proof.
  unfold filteredApplication. rewrite keys_kind_entries.
  unfold componentTypes. cbn [filter].
  destruct (isEmptyArray (applicationAttributes manifest));
    destruct (isEmpty (selectedComponents manifest COMPONENT_TYPES.ACTIVITY));
    destruct (isEmpty (selectedComponents manifest COMPONENT_TYPES.SERVICE));
    destruct (isEmpty (selectedComponents manifest COMPONENT_TYPES.RECEIVER));
    destruct (isEmpty (selectedComponents manifest COMPONENT_TYPES.PROVIDER));
    reflexivity.
Qed.

(** C5. The extraction returns on every [extractable] manifest (and on no
    other).  In the application of the tree it returns, each of the four
    kinds holds the array of the selected ones among that kind's components
    in the document, in the order of the document (and no entry when none
    is selected); and after the attribute entry the keys of the application
    are the kinds that have a selected component, in the order activity,
    service, receiver, provider, which does not depend on the order of the
    keys in the source. *)
Theorem selected_components_keep_order (manifest : JsValue) (verbose : bool) :
  extractable manifest = true ->
  exists tree props,
    snd (_extractExportedComponents manifest verbose) = inr tree
    /\ optGet tree "application" = JObj props
    /\ (forall kind,
           In kind kindOrder ->
           lookup kind props
           = arrayOrUndefined (filter selects (sourceComponents manifest kind)))
    /\ filter (fun key => negb (key =? "$")) (keys props)
       = filter (fun kind =>
                   negb (isEmpty (filter selects (sourceComponents manifest kind))))
           kindOrder.
Proof.
  intros Hex.
  exists (filteredManifest manifest), (filteredApplication manifest).
  split; [now rewrite (extractExportedComponents_ok _ _ Hex) |].
  split; [reflexivity |].
  split.
  - intros kind Hin. rewrite sourceComponents_declared.
    destruct (lookup_kind_entries (applicationAttributes manifest)
                (selectedComponents manifest COMPONENT_TYPES.ACTIVITY)
                (selectedComponents manifest COMPONENT_TYPES.SERVICE)
                (selectedComponents manifest COMPONENT_TYPES.RECEIVER)
                (selectedComponents manifest COMPONENT_TYPES.PROVIDER))
      as (Ha & Hs & Hr & Hp & _).
    unfold kindOrder in Hin. cbn [In] in Hin.
    destruct Hin as [<- | [<- | [<- | [<- | []]]]]; assumption.
  - unfold filteredApplication, kindOrder. rewrite keys_kind_entries.
    cbn [filter]. rewrite !sourceComponents_declared.
    unfold COMPONENT_TYPES.ACTIVITY, COMPONENT_TYPES.SERVICE,
      COMPONENT_TYPES.RECEIVER, COMPONENT_TYPES.PROVIDER.
    fold (selectedComponents manifest "activity").
    fold (selectedComponents manifest "service").
    fold (selectedComponents manifest "receiver").
    fold (selectedComponents manifest "provider").
    destruct (isEmptyArray (applicationAttributes manifest));
      destruct (isEmpty (selectedComponents manifest "activity"));
      destruct (isEmpty (selectedComponents manifest "service"));
      destruct (isEmpty (selectedComponents manifest "receiver"));
      destruct (isEmpty (selectedComponents manifest "provider"));
      reflexivity.
Qed.

Lemma ordering_example :
  snd (_extractExportedComponents orderingManifest false) = inr orderingOutput.
Proof. reflexivity. Qed.

Lemma selected_components_keep_order_witness :
  extractable orderingManifest = true
  /\ exists tree props,
       snd (_extractExportedComponents orderingManifest true) = inr tree
       /\ optGet tree "application" = JObj props
       /\ lookup "activity" props
          = JArr [ component ".A" "true" [];
                   JObj [ ("$", attributes [ (ANDROID_ATTRIBUTES.NAME, ".A3") ]);
                          ("intent-filter",
                            intentFilter "android.intent.action.SEND") ] ]
       /\ lookup "service" props = JUndefined
       /\ lookup "receiver" props = JUndefined
       /\ lookup "provider" props = JArr [ component ".P" "true" [] ]
       /\ filter (fun key => negb (key =? "$")) (keys props)
          = [ "activity"; "provider" ].
Proof.
  split; [reflexivity |].
  destruct (selected_components_keep_order orderingManifest true eq_refl)
    as (tree & props & Hrun & Happ & Hkinds & Hkeys).
  exists tree, props.
  split; [exact Hrun |]. split; [exact Happ |].
  split; [exact (Hkinds "activity" (or_introl eq_refl)) |].
  split; [exact (Hkinds "service" (or_intror (or_introl eq_refl))) |].
  split; [exact (Hkinds "receiver" (or_intror (or_intror (or_introl eq_refl)))) |].
  split; [| exact Hkeys].
  exact (Hkinds "provider"
           (or_intror (or_intror (or_intror (or_introl eq_refl))))).
Defined.

Lemma lookup_never_empty_array (attrs : JsValue) (la ls lr lp : list JsValue)
    (key : string) :
  isEmptyArray
    (lookup key
       (attributesEntry attrs
        ++ kindEntry COMPONENT_TYPES.ACTIVITY la
        ++ kindEntry COMPONENT_TYPES.SERVICE ls
        ++ kindEntry COMPONENT_TYPES.RECEIVER lr
        ++ kindEntry COMPONENT_TYPES.PROVIDER lp)%list) = false.
Proof.
  unfold attributesEntry.
  destruct (isEmptyArray attrs) eqn:Hattrs; destruct la, ls, lr, lp; cbn [app kindEntry lookup];
    repeat match goal with
      | |- context [if ?k =? key then _ else _] => destruct (k =? key)
      end;
    first [reflexivity | exact Hattrs].
Qed.

Lemma hasKey_kind_entries (attrs : JsValue) (la ls lr lp : list JsValue) :
  let props :=
    (attributesEntry attrs
     ++ kindEntry COMPONENT_TYPES.ACTIVITY la
     ++ kindEntry COMPONENT_TYPES.SERVICE ls
     ++ kindEntry COMPONENT_TYPES.RECEIVER lr
     ++ kindEntry COMPONENT_TYPES.PROVIDER lp)%list in
  hasKey COMPONENT_TYPES.ACTIVITY props = negb (isEmpty la)
  /\ hasKey COMPONENT_TYPES.SERVICE props = negb (isEmpty ls)
  /\ hasKey COMPONENT_TYPES.RECEIVER props = negb (isEmpty lr)
  /\ hasKey COMPONENT_TYPES.PROVIDER props = negb (isEmpty lp).
Proof.
  unfold attributesEntry.
  destruct (isEmptyArray attrs); destruct la, ls, lr, lp; cbn; repeat split.
Qed.

(** C6. The extraction returns on every [extractable] manifest (and on no
    other).  In the tree it returns, a kind with no qualifying component has
    no key in the application object, and no key of the application object
    holds an empty array. *)
Theorem empty_kinds_are_omitted (manifest : JsValue) (verbose : bool) :
  extractable manifest = true ->
  exists tree props,
    snd (_extractExportedComponents manifest verbose) = inr tree
    /\ optGet tree "application" = JObj props
    /\ (forall componentType,
           In componentType componentTypes ->
           hasKey componentType props
           = negb (isEmpty (selectedComponents manifest componentType)))
    /\ (forall key, isEmptyArray (lookup key props) = false).
Proof.
  intros Hex.
  exists (filteredManifest manifest), (filteredApplication manifest).
  split; [now rewrite (extractExportedComponents_ok _ _ Hex) |].
  split; [reflexivity |].
  split.
  - intros kind Hin.
    destruct (hasKey_kind_entries (applicationAttributes manifest)
                (selectedComponents manifest COMPONENT_TYPES.ACTIVITY)
                (selectedComponents manifest COMPONENT_TYPES.SERVICE)
                (selectedComponents manifest COMPONENT_TYPES.RECEIVER)
                (selectedComponents manifest COMPONENT_TYPES.PROVIDER))
      as (Ha & Hs & Hr & Hp).
    unfold componentTypes in Hin. cbn [In] in Hin.
    destruct Hin as [<- | [<- | [<- | [<- | []]]]]; assumption.
  - intros key. apply lookup_never_empty_array.
Qed.

Lemma empty_kinds_are_omitted_witness :
  extractable scenarioManifest = true
  /\ exists tree props,
       snd (_extractExportedComponents scenarioManifest false) = inr tree
       /\ optGet tree "application" = JObj props
       /\ (forall componentType,
              In componentType componentTypes ->
              hasKey componentType props
              = negb (isEmpty (selectedComponents scenarioManifest componentType)))
       /\ (forall key, isEmptyArray (lookup key props) = false).
Proof.
  split; [reflexivity |].
  apply (empty_kinds_are_omitted scenarioManifest false). reflexivity.
Defined.

(** ** Verbosity *)

Lemma bindR_ext {A B : Type} (r r' : Result A) (k k' : A -> Result B) :
  r = r' -> (forall a, k a = k' a) -> bindR r k = bindR r' k'.
Proof. intros <- Hk. destruct r; simpl; auto. Qed.

Lemma extractComponents_verbose (componentType : string)
    (components : list JsValue) :
  forall (targetApp : JsValue) (found : nat),
    snd (extractComponents componentType true components targetApp found)
    = snd (extractComponents componentType false components targetApp found).
Proof.
  induction components as [| c rest IH]; intros targetApp found; [reflexivity |].
  cbn [extractComponents].
  destruct (defined c) eqn:Hc.
  - rewrite (isComponentExported_selects _ Hc), !bind_lift_inr.
    destruct (selects c); [| apply IH].
    destruct (push targetApp componentType c) as [e | targetApp']; [reflexivity |].
    rewrite !bind_lift_inr, (logComponentFound_defined _ _ Hc), !snd_bind.
    apply IH.
  - now rewrite (isComponentExported_undefined _ Hc).
Qed.

Lemma extractComponentType_verbose (sourceApp targetApp : JsValue)
    (componentType : string) :
  snd (_extractComponentType sourceApp targetApp componentType true)
  = snd (_extractComponentType sourceApp targetApp componentType false).
Proof.
  unfold _extractComponentType.
  destruct (get sourceApp componentType) as [e | declared]; [reflexivity |].
  rewrite !bind_lift_inr.
  destruct (negb (truthy declared)); [reflexivity |].
  apply extractComponents_verbose.
Qed.

Lemma extractComponentTypes_verbose (types : list string) (manifest : JsValue) :
  forall (extractedManifest : JsValue) (totalFound : nat),
    snd (extractComponentTypes types true manifest extractedManifest totalFound)
    = snd (extractComponentTypes types false manifest extractedManifest totalFound).
Proof.
  induction types as [| kind rest IH]; intros em total; [reflexivity |].
  cbn [extractComponentTypes].
  destruct (get manifest "application") as [e | sourceApp]; [reflexivity |].
  rewrite !bind_lift_inr.
  destruct (get em "application") as [e | targetApp]; [reflexivity |].
  rewrite !bind_lift_inr, !snd_bind.
  apply bindR_ext; [apply extractComponentType_verbose |].
  intros r.
  destruct (set em "application" (fst r)) as [e | em']; [reflexivity |].
  rewrite !bind_lift_inr. apply IH.
Qed.

(** C9. The verbosity flag changes neither what the extraction returns (the
    tree, or the failure) nor what its loop over the kinds computes (the
    manifest under construction and [totalFound]). *)
Theorem verbose_does_not_change_result (manifest : JsValue) :
  snd (_extractExportedComponents manifest true)
  = snd (_extractExportedComponents manifest false)
  /\ forall (extractedManifest : JsValue) (totalFound : nat),
       snd (extractComponentTypes componentTypes true manifest
              extractedManifest totalFound)
       = snd (extractComponentTypes componentTypes false manifest
                extractedManifest totalFound).
Proof.
  split.
  - now rewrite !extractExportedComponents_result.
  - apply extractComponentTypes_verbose.
Qed.

Lemma lookup_outside_keys (key : string) (props : list (string * JsValue)) :
  ~ In key (keys props) -> lookup key props = JUndefined.
Proof.
  induction props as [| [k v] rest IH]; simpl; intros Hnot; [reflexivity |].
  destruct (k =? key) eqn:E.
  - apply String.eqb_eq in E. exfalso. apply Hnot. now left.
  - apply IH. intros Hin. apply Hnot. now right.
Qed.

(** C10. The extraction returns on every [extractable] manifest (and on no
    other).  The tree it returns holds the manifest's attribute
    entry, then an application object, then a [permission] and a
    [uses-permission] array for those of the two that the source has with a
    truthy value, and nothing under any other key; its application object
    holds the attribute entry and then the kinds that have a qualifying
    component, and nothing under any other key.  The application's
    attribute entry is taken not to be an empty array (it is an object or
    absent in a parsed document). *)
Theorem filtered_manifest_shape (manifest : JsValue) (verbose : bool) :
  extractable manifest = true ->
  isEmptyArray (applicationAttributes manifest) = false ->
  exists props perms,
    snd (_extractExportedComponents manifest verbose)
    = inr (JObj (("$", optGet manifest "$")
                 :: ("application", JObj props) :: perms))
    /\ keys props
       = "$" :: filter (fun componentType =>
                          negb (isEmpty (selectedComponents manifest componentType)))
                  componentTypes
    /\ lookup "$" props = applicationAttributes manifest
    /\ keys perms
       = filter (fun permissionType => truthy (optGet manifest permissionType))
           ["permission"; "uses-permission"]
    /\ forallb (fun entry => isArray (snd entry)) perms = true
    /\ (forall key,
           key <> "$" -> isComponentType key = false ->
           lookup key props = JUndefined)
    /\ (forall key,
           ~ In key ["$"; "application"; "permission"; "uses-permission"] ->
           lookup key (("$", optGet manifest "$")
                       :: ("application", JObj props) :: perms) = JUndefined).
Proof.
  intros Hex Hattrs.
  assert (Hkeys :
    keys (filteredApplication manifest)
    = "$" :: filter (fun componentType =>
                       negb (isEmpty (selectedComponents manifest componentType)))
               componentTypes).
  { unfold filteredApplication. rewrite keys_kind_entries, Hattrs.
    unfold componentTypes. cbn [filter app].
    destruct (isEmpty (selectedComponents manifest COMPONENT_TYPES.ACTIVITY));
      destruct (isEmpty (selectedComponents manifest COMPONENT_TYPES.SERVICE));
      destruct (isEmpty (selectedComponents manifest COMPONENT_TYPES.RECEIVER));
      destruct (isEmpty (selectedComponents manifest COMPONENT_TYPES.PROVIDER));
      reflexivity. }
  assert (Hperms :
    keys (permissionEntry manifest "permission"
          ++ permissionEntry manifest "uses-permission")%list
    = filter (fun permissionType => truthy (optGet manifest permissionType))
        ["permission"; "uses-permission"]).
  { unfold permissionEntry. cbn [filter].
    destruct (truthy (optGet manifest "permission"));
      destruct (truthy (optGet manifest "uses-permission")); reflexivity. }
  exists (filteredApplication manifest),
    (permissionEntry manifest "permission"
     ++ permissionEntry manifest "uses-permission")%list.
  split; [now rewrite (extractExportedComponents_ok _ _ Hex) |].
  split; [exact Hkeys |].
  split; [unfold filteredApplication; now apply lookup_kind_entries |].
  split; [exact Hperms |].
  split.
  { unfold permissionEntry.
    destruct (truthy (optGet manifest "permission"));
      destruct (truthy (optGet manifest "uses-permission")); reflexivity. }
  split.
  - intros key Hattr Hkind. apply lookup_outside_keys. rewrite Hkeys.
    intros [Heq | Hin]; [now apply Hattr |].
    apply filter_In in Hin as [Hin _].
    unfold isComponentType in Hkind.
    assert (Hex' : existsb (fun componentType => componentType =? key) componentTypes
                   = true).
    { apply existsb_exists. exists key. split; [exact Hin | apply String.eqb_refl]. }
    congruence.
  - intros key Hnot. apply lookup_outside_keys.
    change (keys (("$", optGet manifest "$")
                  :: ("application", JObj (filteredApplication manifest))
                  :: (permissionEntry manifest "permission"
                      ++ permissionEntry manifest "uses-permission")%list))
      with ("$" :: "application"
            :: keys (permissionEntry manifest "permission"
                     ++ permissionEntry manifest "uses-permission")%list).
    rewrite Hperms. intros Hin. apply Hnot.
    destruct Hin as [<- | [<- | Hin]]; [now left | right; now left |].
    apply filter_In in Hin as [Hin _]. right; right. exact Hin.
Qed.

Lemma filtered_manifest_shape_witness :
  extractable scenarioManifest = true
  /\ isEmptyArray (applicationAttributes scenarioManifest) = false
  /\ exists props perms,
       snd (_extractExportedComponents scenarioManifest true)
       = inr (JObj (("$", optGet scenarioManifest "$")
                    :: ("application", JObj props) :: perms))
       /\ keys props
          = "$" :: filter (fun componentType =>
                             negb (isEmpty (selectedComponents scenarioManifest
                                              componentType)))
                     componentTypes
       /\ lookup "$" props = applicationAttributes scenarioManifest
       /\ keys perms
          = filter (fun permissionType =>
                      truthy (optGet scenarioManifest permissionType))
              ["permission"; "uses-permission"]
       /\ forallb (fun entry => isArray (snd entry)) perms = true
       /\ (forall key,
              key <> "$" -> isComponentType key = false ->
              lookup key props = JUndefined)
       /\ (forall key,
              ~ In key ["$"; "application"; "permission"; "uses-permission"] ->
              lookup key (("$", optGet scenarioManifest "$")
                          :: ("application", JObj props) :: perms) = JUndefined).
Proof.
  split; [reflexivity |]. split; [reflexivity |].
  apply (filtered_manifest_shape scenarioManifest true); reflexivity.
Defined.

(** ** The pipeline *)

Section PipelineFacts.

Variable FileSystem : Type.
Variable readFile : FileSystem -> string -> string + string.
Variable writeFile : FileSystem -> string -> string -> string + FileSystem.
Variable parseStringPromise : string -> string + JsValue.
Variable buildObject : JsValue -> string.

Lemma extract_cases (fs : FileSystem) (inputPath outputPath : string)
    (verbose : bool) :
  let opening :=
    fst (_logIfVerbose verbose
           ("📖 Reading AndroidManifest.xml from: " ++ inputPath)) in
  extract FileSystem readFile writeFile parseStringPromise buildObject
    inputPath outputPath verbose fs =
    match readFile fs inputPath with
    | inl diag => (fs, (opening, inl (IOFailure diag)))
    | inr xmlContent =>
        match parseStringPromise xmlContent with
        | inl diag => (fs, (opening, inl (ParseFailure diag)))
        | inr result =>
            if negb (truthy (optGet result "manifest"))
            then (fs, (opening, inl (ThrownError NO_MANIFEST_MESSAGE)))
            else
              match _extractExportedComponents (optGet result "manifest") verbose with
              | (out, inl e) => (fs, ((opening ++ out)%list, inl e))
              | (out, inr tree) =>
                  match writeFile fs outputPath (buildObject tree) with
                  | inl diag => (fs, ((opening ++ out)%list, inl (IOFailure diag)))
                  | inr fs' =>
                      (fs',
                       ((opening ++ out
                         ++ fst (_logIfVerbose verbose
                                   ("📝 Output written to: " ++ outputPath)))%list,
                        inr tt))
                  end
              end
        end
    end.
Proof.
  unfold extract, await, sync, _parseManifestFile, fs_readFile,
    parser_parseStringPromise, _writeOutputFile, fs_writeFile, await, sync, lift.
  destruct verbose; cbn [_logIfVerbose console_log ret fst];
    (destruct (readFile fs inputPath) as [diag | xmlContent]; [reflexivity |]);
    (destruct (parseStringPromise xmlContent) as [diag | result]; [reflexivity |]);
    (destruct (truthy (optGet result "manifest")) eqn:Ht; cbn [negb];
     [| reflexivity]);
    (assert (Hget : get result "manifest" = inr (optGet result "manifest"))
       by (apply get_defined; destruct result; try discriminate; reflexivity));
    rewrite Hget;
    (destruct (_extractExportedComponents (optGet result "manifest") _)
       as [out [e | tree]]; [rewrite ?app_nil_r; reflexivity |]);
    (destruct (writeFile fs outputPath (buildObject tree)) as [diag | fs'];
     cbn [app]; rewrite ?app_nil_r; reflexivity).
Qed.

(** C8, amended. A text the parser rejects makes [extract] fail with the
    parser's diagnostic; a text the parser resolves to a result without a
    manifest root (no [manifest] entry, or null, or an empty one) makes it
    fail with the error of [_parseManifestFile], which no parse failure
    equals; and in both cases, as after every failure, the file system is
    the one the run started on (a rejected write is taken to leave the
    files alone).  When [extract] succeeds, the file system it leaves is the
    one [writeFile] made from the serialization of the tree that
    [_extractExportedComponents] had returned. *)
Theorem extract_failures_write_nothing (fs : FileSystem)
    (inputPath outputPath : string) (verbose : bool) :
  (forall xmlContent diag,
      readFile fs inputPath = inr xmlContent ->
      parseStringPromise xmlContent = inl diag ->
      exists out,
        extract FileSystem readFile writeFile parseStringPromise buildObject
          inputPath outputPath verbose fs
        = (fs, (out, inl (ParseFailure diag))))
  /\ (forall xmlContent result,
         readFile fs inputPath = inr xmlContent ->
         parseStringPromise xmlContent = inr result ->
         truthy (optGet result "manifest") = false ->
         exists out,
           extract FileSystem readFile writeFile parseStringPromise buildObject
             inputPath outputPath verbose fs
           = (fs, (out, inl (ThrownError NO_MANIFEST_MESSAGE))))
  /\ (forall diag, ThrownError NO_MANIFEST_MESSAGE <> ParseFailure diag)
  /\ (forall fs' out e,
         extract FileSystem readFile writeFile parseStringPromise buildObject
           inputPath outputPath verbose fs
         = (fs', (out, inl e)) ->
         fs' = fs)
  /\ (forall fs' out,
         extract FileSystem readFile writeFile parseStringPromise buildObject
           inputPath outputPath verbose fs
         = (fs', (out, inr tt)) ->
         exists xmlContent result tree,
           readFile fs inputPath = inr xmlContent
           /\ parseStringPromise xmlContent = inr result
           /\ snd (_extractExportedComponents (optGet result "manifest") verbose)
              = inr tree
           /\ writeFile fs outputPath (buildObject tree) = inr fs').
Proof.
  pose proof (extract_cases fs inputPath outputPath verbose) as Hrun.
  cbv zeta in Hrun.
  split; [| split; [| split; [| split]]].
  - intros xmlContent diag Hread Hparse. rewrite Hrun, Hread, Hparse.
    eexists; reflexivity.
  - intros xmlContent result Hread Hparse Hroot.
    rewrite Hrun, Hread, Hparse, Hroot. eexists; reflexivity.
  - discriminate.
  - intros fs' out e. rewrite Hrun.
    destruct (readFile fs inputPath) as [diag | xmlContent]; [congruence |].
    destruct (parseStringPromise xmlContent) as [diag | result]; [congruence |].
    destruct (negb (truthy (optGet result "manifest"))); [congruence |].
    destruct (_extractExportedComponents (optGet result "manifest") verbose)
      as [lines [e' | tree]]; [congruence |].
    destruct (writeFile fs outputPath (buildObject tree)); [congruence | discriminate].
  - intros fs' out. rewrite Hrun.
    destruct (readFile fs inputPath) as [diag | xmlContent]; [discriminate |].
    destruct (parseStringPromise xmlContent) as [diag | result] eqn:Hparse;
      [discriminate |].
    destruct (negb (truthy (optGet result "manifest"))); [discriminate |].
    destruct (_extractExportedComponents (optGet result "manifest") verbose)
      as [lines [e' | tree]] eqn:Hextract; [discriminate |].
    destruct (writeFile fs outputPath (buildObject tree)) as [diag | fs2] eqn:Hwrite;
      [discriminate |].
    intros H. injection H as <- _.
    exists xmlContent, result, tree. rewrite Hextract.
    repeat split; assumption.
Qed.

End PipelineFacts.

(** C8, as the claim has it, fails on the blank document.  It is not
    well-formed markup (it has no root element), but [xml2js] resolves it to
    null instead of rejecting it, and [_parseManifestFile], which reads
    [result?.manifest], then raises its own error: the failure is the one of
    a missing manifest root and carries no parse diagnostic. *)
Lemma blank_document_is_not_a_parse_failure :
  Toy.readFile Toy.disk "blank.xml" = inr ""
  /\ Toy.parseStringPromise "" = inr JNull
  /\ Toy.run "blank.xml" "out.xml" false
     = (Toy.disk, ([], inl (ThrownError NO_MANIFEST_MESSAGE)))
  /\ forall diag,
       snd (snd (Toy.run "blank.xml" "out.xml" false)) <> inl (ParseFailure diag).
Proof. repeat split. discriminate. Qed.

Lemma extract_failures_write_nothing_witness :
  (Toy.readFile Toy.disk "broken.xml" = inr "<manifest><application>"
   /\ Toy.parseStringPromise "<manifest><application>" = inl "Unclosed root tag"
   /\ exists out,
        Toy.run "broken.xml" "out.xml" true
        = (Toy.disk, (out, inl (ParseFailure "Unclosed root tag"))))
  /\ (Toy.readFile Toy.disk "root.xml" = inr "<root></root>"
      /\ Toy.parseStringPromise "<root></root>" = inr (JObj [("root", JStr "")])
      /\ truthy (optGet (JObj [("root", JStr "")]) "manifest") = false
      /\ exists out,
           Toy.run "root.xml" "out.xml" true
           = (Toy.disk, (out, inl (ThrownError NO_MANIFEST_MESSAGE))))
  /\ (Toy.run "empty.xml" "out.xml" false
      = (("out.xml", "<manifest components=0/>") :: Toy.disk, ([], inr tt))
      /\ exists xmlContent result tree,
           Toy.readFile Toy.disk "empty.xml" = inr xmlContent
           /\ Toy.parseStringPromise xmlContent = inr result
           /\ snd (_extractExportedComponents (optGet result "manifest") false)
              = inr tree
           /\ Toy.writeFile Toy.disk "out.xml" (Toy.buildObject tree)
              = inr (("out.xml", "<manifest components=0/>") :: Toy.disk)).
Proof.
  split; [| split].
  - split; [reflexivity |]. split; [reflexivity |].
    exact (proj1 (extract_failures_write_nothing Toy.FileSystem Toy.readFile
                    Toy.writeFile Toy.parseStringPromise Toy.buildObject
                    Toy.disk "broken.xml" "out.xml" true)
             "<manifest><application>" "Unclosed root tag" eq_refl eq_refl).
  - split; [reflexivity |]. split; [reflexivity |]. split; [reflexivity |].
    exact (proj1 (proj2 (extract_failures_write_nothing Toy.FileSystem Toy.readFile
                           Toy.writeFile Toy.parseStringPromise Toy.buildObject
                           Toy.disk "root.xml" "out.xml" true))
             "<root></root>" (JObj [("root", JStr "")]) eq_refl eq_refl eq_refl).
  - split; [reflexivity |].
    exact (proj2 (proj2 (proj2 (proj2
             (extract_failures_write_nothing Toy.FileSystem Toy.readFile
                Toy.writeFile Toy.parseStringPromise Toy.buildObject
                Toy.disk "empty.xml" "out.xml" false))))
             _ [] eq_refl).
Defined.

(** ** More on the predicate *)

(** X1. The predicate raises exactly on undefined and null: on every string,
    object and array it answers, absent attributes and absent children
    included. *)
Theorem isComponentExported_raises_iff (component : JsValue) :
  (exists error, _isComponentExported component = inl error)
  <-> defined component = false.
Proof.
  destruct (defined component) eqn:Hd.
  - rewrite (isComponentExported_selects _ Hd). split; [intros [e He] |]; discriminate.
  - rewrite (isComponentExported_undefined _ Hd). split; [reflexivity |].
    intros _. now exists (TypeError "$").
Qed.

Lemma isComponentExported_raises_iff_witness :
  defined JNull = false
  /\ exists error, _isComponentExported JNull = inl error.
Proof.
  split; [reflexivity |].
  exact (proj2 (isComponentExported_raises_iff JNull) eq_refl).
Defined.

Lemma exported_true_always_selected_witness :
  strictEq (exportedAttribute (component ".A" "true" [])) "true" = true
  /\ _isComponentExported (component ".A" "true" []) = inr true.
Proof.
  split; [reflexivity |].
  apply (exported_true_always_selected (component ".A" "true" [])). reflexivity.
Defined.

Lemma exported_false_never_selected_witness :
  strictEq
    (exportedAttribute
       (component ".A" "false"
          [ ("intent-filter", intentFilter "android.intent.action.VIEW") ]))
    "false" = true
  /\ selects
       (component ".A" "false"
          [ ("intent-filter", intentFilter "android.intent.action.VIEW") ])
     = false.
Proof.
  split; [reflexivity |].
  apply (exported_false_never_selected
           (component ".A" "false"
              [ ("intent-filter", intentFilter "android.intent.action.VIEW") ])).
  reflexivity.
Defined.

Lemma exported_unset_selected_by_filter_witness :
  (defined capitalTrueActivity = true
   /\ strictEq (exportedAttribute capitalTrueActivity) "true" = false
   /\ strictEq (exportedAttribute capitalTrueActivity) "false" = false
   /\ _isComponentExported capitalTrueActivity = inr true)
  /\ _isComponentExported capitalFalseActivity = inr false.
Proof.
  split.
  - split; [reflexivity |]. split; [reflexivity |]. split; [reflexivity |].
    apply (exported_unset_selected_by_filter capitalTrueActivity); reflexivity.
  - apply (exported_unset_selected_by_filter capitalFalseActivity); reflexivity.
Defined.

(** X5. The earlier predicate and the refactored one fail on the same
    values with the same error, and where they return, the refactored
    boolean is the truthiness of what the earlier predicate returns.  What
    the earlier one returns is not always a boolean: on a component that is
    there and whose exported attribute is neither the string [true] nor the
    string [false], it is the [intent-filter] entry itself. *)
Theorem legacy_predicate_agrees (component : JsValue) :
  match Legacy.isExportedOrHasIntentFilter component,
        _isComponentExported component with
  | inr answer, inr selected => Legacy.answerTruthy answer = selected
  | inl error, inl error' => error = error'
  | _, _ => False
  end
  /\ (defined component = true ->
      strictEq (exportedAttribute component) "true" = false ->
      strictEq (exportedAttribute component) "false" = false ->
      Legacy.isExportedOrHasIntentFilter component
      = inr (Legacy.Value (optGet component "intent-filter"))).
Proof.
  unfold Legacy.isExportedOrHasIntentFilter, _isComponentExported,
    exportedAttribute.
  destruct (defined component) eqn:Hd.
  - rewrite !(get_defined _ _ Hd). cbn [bindR]. split.
    + destruct (strictEq (optGet (optGet component "$")
                            ANDROID_ATTRIBUTES.EXPORTED) "false");
        [reflexivity |].
      destruct (strictEq (optGet (optGet component "$")
                            ANDROID_ATTRIBUTES.EXPORTED) "true");
        reflexivity.
    + intros _ Htrue Hfalse. now rewrite Htrue, Hfalse.
  - rewrite !(get_undefined _ _ Hd). cbn [bindR]. split; [reflexivity |].
    discriminate.
Qed.

Lemma legacy_predicate_agrees_witness :
  defined capitalTrueActivity = true
  /\ strictEq (exportedAttribute capitalTrueActivity) "true" = false
  /\ strictEq (exportedAttribute capitalTrueActivity) "false" = false
  /\ Legacy.isExportedOrHasIntentFilter capitalTrueActivity
     = inr (Legacy.Value (intentFilter "android.intent.action.MAIN"))
  /\ _isComponentExported capitalTrueActivity = inr true.
Proof.
  split; [reflexivity |]. split; [reflexivity |]. split; [reflexivity |].
  split; [| reflexivity].
  exact (proj2 (legacy_predicate_agrees capitalTrueActivity)
           eq_refl eq_refl eq_refl).
Defined.

Lemma extractExportedComponents_returns_iff_witness :
  extractable scenarioManifest = true
  /\ exists tree, snd (_extractExportedComponents scenarioManifest true) = inr tree.
Proof.
  split; [reflexivity |].
  exact (proj2 (extractExportedComponents_returns_iff scenarioManifest true) eq_refl).
Defined.

Lemma absent_application_raises_witness :
  defined libraryManifest = true
  /\ defined (optGet libraryManifest "application") = false
  /\ snd (_extractExportedComponents libraryManifest true)
     = inl (TypeError COMPONENT_TYPES.ACTIVITY).
Proof.
  split; [reflexivity |]. split; [reflexivity |].
  apply (absent_application_raises libraryManifest true); reflexivity.
Defined.

Lemma copied_parts_witness :
  extractable scenarioManifest = true
  /\ exists tree,
       snd (_extractExportedComponents scenarioManifest false) = inr tree
       /\ optGet tree "$" = attributes [ ("package", "com.example") ]
       /\ optGet (optGet tree "application") "$"
          = attributes [ ("android:label", "Example") ]
       /\ (exists items,
              optGet (optGet tree "application") "receiver" = JArr items
              /\ In (component ".BootReceiver" "true"
                       [ ("intent-filter",
                           intentFilter "android.intent.action.BOOT_COMPLETED") ])
                    items)
       /\ optGet tree "permission"
          = JArr [ namedElement "com.example.permission.READ_DATA" ]
       /\ optGet tree "uses-permission"
          = JArr [ namedElement "android.permission.RECEIVE_BOOT_COMPLETED" ].
Proof.
  split; [reflexivity |].
  destruct (copied_parts scenarioManifest false eq_refl)
    as (tree & Hrun & Hattrs & Happ & Hkinds & Hperms).
  exists tree.
  split; [exact Hrun |]. split; [exact Hattrs |].
  split; [exact (Happ eq_refl) |].
  split.
  - exact (Hkinds "receiver"
             (component ".BootReceiver" "true"
                [ ("intent-filter",
                    intentFilter "android.intent.action.BOOT_COMPLETED") ])
             (or_intror (or_intror (or_introl eq_refl)))
             (or_introl eq_refl) eq_refl).
  - split.
    + exact (Hperms "permission" (or_introl eq_refl) eq_refl).
    + exact (Hperms "uses-permission" (or_intror (or_introl eq_refl)) eq_refl).
Defined.

(** ** More on the extraction *)

(** X7. The extraction has one way to fail, the TypeError of reading a
    property from undefined or null: of [$], when the manifest or a visited
    component is missing, or of the first kind, when the manifest is there
    and its application is not. *)
Theorem extractExportedComponents_failure (manifest : JsValue)
    (verbose : bool) (error : Failure) :
  snd (_extractExportedComponents manifest verbose) = inl error ->
  error = TypeError "$"
  \/ (error = TypeError COMPONENT_TYPES.ACTIVITY
      /\ defined manifest = true
      /\ defined (optGet manifest "application") = false).
Proof.
  rewrite extractExportedComponents_result.
  destruct (extractable manifest); [discriminate |].
  intros H. injection H as <-. unfold extractionFailure.
  destruct (defined manifest); cbn [andb]; [| now left].
  destruct (defined (optGet manifest "application")); cbn [negb]; [now left |].
  right. repeat split.
Qed.

Lemma extractExportedComponents_failure_witness :
  snd (_extractExportedComponents libraryManifest false)
  = inl (TypeError COMPONENT_TYPES.ACTIVITY)
  /\ (TypeError COMPONENT_TYPES.ACTIVITY = TypeError "$"
      \/ (TypeError COMPONENT_TYPES.ACTIVITY = TypeError COMPONENT_TYPES.ACTIVITY
          /\ defined libraryManifest = true
          /\ defined (optGet libraryManifest "application") = false)).
Proof.
  split; [reflexivity |].
  apply (extractExportedComponents_failure libraryManifest false). reflexivity.
Defined.

(** X9. When the application of the manifest is a string (an application
    element without attributes and without child elements), the extraction
    returns: the application of the tree holds an empty attribute object
    and nothing else, and the tree has no component. *)
Theorem application_without_children (manifest : JsValue) (text : string)
    (verbose : bool) :
  optGet manifest "application" = JStr text ->
  exists tree,
    snd (_extractExportedComponents manifest verbose) = inr tree
    /\ optGet tree "application" = JObj [ ("$", JObj []) ]
    /\ componentCount tree = 0.
Proof.
  intros Happ.
  assert (Hm : defined manifest = true)
    by (destruct manifest; try discriminate; reflexivity).
  assert (Hex : extractable manifest = true).
  { unfold extractable, declaredComponents, componentTypes.
    rewrite Hm, Happ. reflexivity. }
  exists (filteredManifest manifest).
  split; [now rewrite (extractExportedComponents_ok _ _ Hex) |].
  assert (Htree : optGet (filteredManifest manifest) "application"
                  = JObj [ ("$", JObj []) ]).
  { change (optGet (filteredManifest manifest) "application")
      with (JObj (filteredApplication manifest)).
    unfold filteredApplication, applicationAttributes, selectedComponents,
      declaredComponents.
    rewrite Happ. reflexivity. }
  split; [exact Htree |].
  unfold componentCount. rewrite Htree. reflexivity.
Qed.

Lemma application_without_children_witness :
  optGet (JObj [ ("application", JStr "") ]) "application" = JStr ""
  /\ exists tree,
       snd (_extractExportedComponents (JObj [ ("application", JStr "") ]) true)
       = inr tree
       /\ optGet tree "application" = JObj [ ("$", JObj []) ]
       /\ componentCount tree = 0.
Proof.
  split; [reflexivity |].
  apply (application_without_children (JObj [ ("application", JStr "") ]) "" true).
  reflexivity.
Defined.

Lemma length_filter_le {A : Type} (f : A -> bool) (l : list A) :
  length (filter f l) <= length l.
Proof.
  induction l as [| x l IH]; simpl; [lia |].
  destruct (f x); simpl; lia.
Qed.

Lemma selects_not_false (component : JsValue) :
  selects component = true ->
  strictEq (exportedAttribute component) "false" = false.
Proof.
  intros Hsel. pose proof (selects_defined _ Hsel) as Hd.
  unfold selects in Hsel. rewrite (isComponentExported_defined _ Hd) in Hsel.
  destruct (strictEq (exportedAttribute component) "false") eqn:Hfalse;
    [| reflexivity].
  destruct (exportedAttribute component) as [| | s | |]; try discriminate.
  cbn in Hfalse. apply String.eqb_eq in Hfalse. subst s. discriminate.
Qed.

(** X11. The extraction adds nothing: on every [extractable] manifest, each
    component of the returned tree is a component of the same kind in the
    source, it is not marked exported [false], and the tree holds at most
    as many components as the source. *)
Theorem extraction_adds_nothing (manifest : JsValue) (verbose : bool) :
  extractable manifest = true ->
  exists tree,
    snd (_extractExportedComponents manifest verbose) = inr tree
    /\ (forall componentType component,
           In componentType componentTypes ->
           In component (declaredComponents (optGet tree "application") componentType) ->
           In component
             (declaredComponents (optGet manifest "application") componentType)
           /\ _isComponentExported component = inr true
           /\ strictEq (exportedAttribute component) "false" = false)
    /\ componentCount tree <= componentCount manifest.
Proof.
  intros Hex. exists (filteredManifest manifest).
  split; [now rewrite (extractExportedComponents_ok _ _ Hex) |].
  split.
  - intros kind c Hkind Hc.
    rewrite (declaredComponents_filtered _ _ Hkind) in Hc.
    apply filter_In in Hc as [Hin Hsel].
    split; [exact Hin |].
    pose proof (selects_defined _ Hsel) as Hd.
    assert (Hres : _isComponentExported c = inr true)
      by now rewrite (isComponentExported_selects _ Hd), Hsel.
    split; [exact Hres |].
    now apply selects_not_false.
  - rewrite componentCount_filtered. unfold componentCount, componentTypes.
    cbn [map list_sum fold_right].
    pose proof (fun kind =>
      length_filter_le selects
        (declaredComponents (optGet manifest "application") kind)) as Hle.
    unfold selectedComponents.
    pose proof (Hle COMPONENT_TYPES.ACTIVITY). pose proof (Hle COMPONENT_TYPES.SERVICE).
    pose proof (Hle COMPONENT_TYPES.RECEIVER). pose proof (Hle COMPONENT_TYPES.PROVIDER).
    lia.
Qed.

Lemma extraction_adds_nothing_witness :
  extractable scenarioManifest = true
  /\ exists tree,
       snd (_extractExportedComponents scenarioManifest true) = inr tree
       /\ (forall componentType component,
              In componentType componentTypes ->
              In component
                (declaredComponents (optGet tree "application") componentType) ->
              In component
                (declaredComponents (optGet scenarioManifest "application")
                   componentType)
              /\ _isComponentExported component = inr true
              /\ strictEq (exportedAttribute component) "false" = false)
       /\ componentCount tree <= componentCount scenarioManifest.
Proof.
  split; [reflexivity |].
  apply (extraction_adds_nothing scenarioManifest true). reflexivity.
Defined.

(** ** What a verbose run prints *)

(** X12. On every [extractable] manifest a verbose extraction prints the
    search line, then one line for each component of the tree it returns,
    kind after kind in the order of the tree, then the summary line with
    the number of components of the tree: two lines more than the tree has
    components.  A run that is not verbose prints nothing. *)
Theorem verbose_lines_follow_tree (manifest : JsValue) :
  extractable manifest = true ->
  exists tree,
    snd (_extractExportedComponents manifest true) = inr tree
    /\ fst (_extractExportedComponents manifest true)
       = ("🔍 Searching for exported components..."
          :: flat_map
               (fun componentType =>
                  map (componentLine componentType)
                    (declaredComponents (optGet tree "application") componentType))
               componentTypes
          ++ [foundMessage (componentCount tree)])%list
    /\ length (fst (_extractExportedComponents manifest true))
       = componentCount tree + 2
    /\ fst (_extractExportedComponents manifest false) = [].
Proof.
  intros Hex. exists (filteredManifest manifest).
  rewrite !(extractExportedComponents_ok _ _ Hex). cbn [fst snd].
  split; [reflexivity |].
  assert (Hlines :
    verboseLines manifest
    = ("🔍 Searching for exported components..."
       :: flat_map
            (fun componentType =>
               map (componentLine componentType)
                 (declaredComponents
                    (optGet (filteredManifest manifest) "application")
                    componentType))
            componentTypes
       ++ [foundMessage (componentCount (filteredManifest manifest))])%list).
  { rewrite componentCount_filtered. unfold verboseLines. f_equal. f_equal.
    unfold componentTypes. cbn [flat_map].
    rewrite !declaredComponents_filtered by (unfold componentTypes; cbn; tauto).
    reflexivity. }
  split; [exact Hlines |].
  split; [| reflexivity].
  rewrite componentCount_filtered. unfold verboseLines, componentTypes.
  cbn [flat_map map list_sum fold_right length].
  rewrite !length_app, !length_map. cbn [length]. lia.
Qed.

Lemma verbose_lines_follow_tree_witness :
  extractable scenarioManifest = true
  /\ exists tree,
       snd (_extractExportedComponents scenarioManifest true) = inr tree
       /\ fst (_extractExportedComponents scenarioManifest true)
          = ("🔍 Searching for exported components..."
             :: flat_map
                  (fun componentType =>
                     map (componentLine componentType)
                       (declaredComponents (optGet tree "application")
                          componentType))
                  componentTypes
             ++ [foundMessage (componentCount tree)])%list
       /\ length (fst (_extractExportedComponents scenarioManifest true))
          = componentCount tree + 2
       /\ fst (_extractExportedComponents scenarioManifest false) = [].
Proof.
  split; [reflexivity |].
  apply (verbose_lines_follow_tree scenarioManifest). reflexivity.
Defined.



(** ** The cleanup on any object *)

Lemma lookup_app_outside (key : string) (front back : list (string * JsValue)) :
  ~ In key (keys front) -> lookup key (front ++ back) = lookup key back.
Proof.
  induction front as [| [k v] front IH]; simpl; intros Hnot; [reflexivity |].
  destruct (k =? key) eqn:E.
  - apply String.eqb_eq in E. exfalso. apply Hnot. now left.
  - apply IH. intros Hin. apply Hnot. now right.
Qed.

Lemma delete_outside (key : string) (props : list (string * JsValue)) :
  ~ In key (keys props) -> delete key props = props.
Proof.
  induction props as [| [k v] rest IH]; simpl; intros Hnot; [reflexivity |].
  destruct (k =? key) eqn:E.
  - apply String.eqb_eq in E. exfalso. apply Hnot. now left.
  - cbn [negb]. f_equal. apply IH. intros Hin. apply Hnot. now right.
Qed.

Lemma delete_app (key : string) (front back : list (string * JsValue)) :
  delete key (front ++ back) = (delete key front ++ delete key back)%list.
Proof. unfold delete. apply filter_app. Qed.

Lemma keys_app (front back : list (string * JsValue)) :
  keys (front ++ back) = (keys front ++ keys back)%list.
Proof. unfold keys. apply map_app. Qed.

Lemma lookup_head (key : string) (v : JsValue) (rest : list (string * JsValue)) :
  lookup key ((key, v) :: rest) = v.
Proof. simpl. now rewrite String.eqb_refl. Qed.

Lemma delete_head (key : string) (v : JsValue) (rest : list (string * JsValue)) :
  delete key ((key, v) :: rest) = delete key rest.
Proof. unfold delete. simpl. now rewrite String.eqb_refl. Qed.

Lemma cleanupKeys_pending (pending : list (string * JsValue)) :
  forall done : list (string * JsValue),
    NoDup (keys (done ++ pending)) ->
    cleanupKeys (keys pending) (done ++ pending)
    = (done ++ filter keptEntry pending)%list.
Proof.
  induction pending as [| [k v] rest IH]; intros done Hnodup.
  - now rewrite !app_nil_r.
  - rewrite keys_app in Hnodup. cbn [keys map fst] in Hnodup.
    pose proof (NoDup_remove_2 _ _ _ Hnodup) as Hfresh.
    pose proof (NoDup_remove_1 _ _ _ Hnodup) as Hrest.
    assert (Hdone : ~ In k (keys done))
      by (intros Hin; apply Hfresh; apply in_or_app; now left).
    assert (Htail : ~ In k (keys rest))
      by (intros Hin; apply Hfresh; apply in_or_app; now right).
    unfold cleanupKeys. cbn [keys map fst fold_left].
    rewrite (lookup_app_outside _ _ _ Hdone), lookup_head.
    cbn [filter]. unfold keptEntry at 1. cbn [snd].
    destruct (isEmptyArray v) eqn:Hv; cbn [negb].
    + rewrite delete_app, (delete_outside _ _ Hdone), delete_head,
        (delete_outside _ _ Htail).
      apply (IH done). now rewrite keys_app.
    + change (done ++ (k, v) :: rest)%list with (done ++ [(k, v)] ++ rest)%list.
      rewrite app_assoc.
      change (done ++ (k, v) :: filter keptEntry rest)%list
        with (done ++ [(k, v)] ++ filter keptEntry rest)%list.
      rewrite (app_assoc done).
      apply (IH (done ++ [(k, v)])%list).
      rewrite <- app_assoc, keys_app. exact Hnodup.
Qed.

Lemma cleanupKeys_all (props : list (string * JsValue)) :
  NoDup (keys props) ->
  cleanupKeys (keys props) props = filter keptEntry props.
Proof. intros Hnodup. exact (cleanupKeys_pending props [] Hnodup). Qed.

Lemma keys_filter_incl (f : string * JsValue -> bool)
    (props : list (string * JsValue)) (key : string) :
  In key (keys (filter f props)) -> In key (keys props).
Proof.
  unfold keys. rewrite !in_map_iff. intros [entry [Hfst Hin]].
  apply filter_In in Hin as [Hin _]. now exists entry.
Qed.

Lemma NoDup_keys_filter (f : string * JsValue -> bool)
    (props : list (string * JsValue)) :
  NoDup (keys props) -> NoDup (keys (filter f props)).
Proof.
  induction props as [| [k v] rest IH]; simpl; intros Hnodup; [constructor |].
  inversion Hnodup as [| ? ? Hfresh Hrest]; subst.
  destruct (f (k, v)); [| now apply IH].
  simpl. constructor; [| now apply IH].
  intros Hin. apply Hfresh. exact (keys_filter_incl _ _ _ Hin).
Qed.

(** X14. On an object (its keys are distinct) [_cleanupEmptyArrays] does not
    raise and removes exactly the entries that hold an empty array: the
    other entries stay, in their order, so a key that held an empty array
    reads as undefined afterwards and every other key reads as before. *)
Theorem cleanupEmptyArrays_removes_empty_arrays (props : list (string * JsValue)) :
  NoDup (keys props) ->
  _cleanupEmptyArrays (JObj props) = inr (JObj (filter keptEntry props))
  /\ forall key,
       lookup key (filter keptEntry props)
       = if isEmptyArray (lookup key props) then JUndefined
         else lookup key props.
Proof.
  intros Hnodup. split.
  - cbn [_cleanupEmptyArrays]. do 2 f_equal.
    exact (cleanupKeys_all props Hnodup).
  - intros key. induction props as [| [k v] rest IH]; [reflexivity |].
    inversion Hnodup as [| ? ? Hfresh Hrest]; subst.
    cbn [filter lookup]. unfold keptEntry at 1. cbn [snd].
    destruct (k =? key) eqn:E.
    + apply String.eqb_eq in E. subst key.
      destruct (isEmptyArray v) eqn:Hv; cbn [negb].
      * apply lookup_outside_keys. intros Hin. apply Hfresh.
        exact (keys_filter_incl _ _ _ Hin).
      * cbn [lookup]. now rewrite String.eqb_refl.
    + destruct (isEmptyArray v); cbn [negb lookup]; rewrite ?E; now apply IH.
Qed.

Lemma cleanupEmptyArrays_removes_empty_arrays_witness :
  NoDup (keys untidyApplication)
  /\ _cleanupEmptyArrays (JObj untidyApplication)
     = inr (JObj [ ("$", JObj []);
                   ("service", JArr [ namedElement ".S" ]);
                   ("meta-data", JStr "") ]).
Proof.
  assert (Hnodup : NoDup (keys untidyApplication)).
  { repeat constructor; cbn; intuition discriminate. }
  split; [exact Hnodup |].
  exact (proj1 (cleanupEmptyArrays_removes_empty_arrays untidyApplication Hnodup)).
Defined.

(** X15. Cleaning an object twice is cleaning it once: on an object the
    second [_cleanupEmptyArrays] returns what the first returned. *)
Theorem cleanupEmptyArrays_idempotent (props : list (string * JsValue)) :
  NoDup (keys props) ->
  exists cleaned,
    _cleanupEmptyArrays (JObj props) = inr cleaned
    /\ _cleanupEmptyArrays cleaned = inr cleaned.
Proof.
  intros Hnodup. exists (JObj (filter keptEntry props)).
  split.
  - cbn [_cleanupEmptyArrays]. do 2 f_equal.
    exact (cleanupKeys_all props Hnodup).
  - cbn [_cleanupEmptyArrays]. do 2 f_equal.
    rewrite (cleanupKeys_all _ (NoDup_keys_filter _ _ Hnodup)).
    apply filter_filter_same.
Qed.

Lemma cleanupEmptyArrays_idempotent_witness :
  NoDup (keys untidyApplication)
  /\ exists cleaned,
       _cleanupEmptyArrays (JObj untidyApplication) = inr cleaned
       /\ _cleanupEmptyArrays cleaned = inr cleaned.
Proof.
  assert (Hnodup : NoDup (keys untidyApplication)).
  { repeat constructor; cbn; intuition discriminate. }
  split; [exact Hnodup |].
  exact (cleanupEmptyArrays_idempotent untidyApplication Hnodup).
Defined.

(** ** The earlier variant against the refactored one *)

Lemma legacy_answer_defined (component : JsValue) :
  defined component = true ->
  exists answer,
    Legacy.isExportedOrHasIntentFilter component = inr answer
    /\ Legacy.answerTruthy answer = selects component.
Proof.
  intros Hd. unfold selects. rewrite (isComponentExported_defined _ Hd).
  unfold Legacy.isExportedOrHasIntentFilter, exportedAttribute.
  rewrite !(get_defined _ _ Hd). cbn [bindR].
  destruct (strictEq (optGet (optGet component "$")
                        ANDROID_ATTRIBUTES.EXPORTED) "false") eqn:Hfalse.
  - eexists. split; [reflexivity |].
    destruct (optGet (optGet component "$") ANDROID_ATTRIBUTES.EXPORTED)
      as [| | s | |]; try discriminate.
    cbn in Hfalse. apply String.eqb_eq in Hfalse. now subst s.
  - destruct (strictEq (optGet (optGet component "$")
                          ANDROID_ATTRIBUTES.EXPORTED) "true");
      eexists; (split; [reflexivity |]); cbn;
      now destruct (truthy (optGet component "intent-filter")).
Qed.

Lemma legacy_answer_undefined (component : JsValue) :
  defined component = false ->
  Legacy.isExportedOrHasIntentFilter component = inl (TypeError "$").
Proof.
  intros Hd. unfold Legacy.isExportedOrHasIntentFilter.
  now rewrite (get_undefined _ _ Hd).
Qed.

Lemma legacy_extractLoop_result (componentType label : string) (verbose : bool)
    (components : list JsValue) :
  forall (targetApp : JsValue) (found : nat),
    snd (Legacy.extractLoop componentType label verbose components targetApp found)
    = snd (extractComponents componentType false components targetApp found).
Proof.
  induction components as [| c rest IH]; intros targetApp found; [reflexivity |].
  cbn [Legacy.extractLoop extractComponents].
  destruct (defined c) eqn:Hc.
  - destruct (legacy_answer_defined _ Hc) as (answer & Hanswer & Htruthy).
    rewrite Hanswer, (isComponentExported_selects _ Hc), !bind_lift_inr, Htruthy.
    destruct (selects c); [| apply IH].
    destruct (push targetApp componentType c) as [e | targetApp']; [reflexivity |].
    rewrite !bind_lift_inr, !snd_bind.
    destruct verbose.
    + rewrite (get_defined _ _ Hc), bind_lift_inr. cbn [console_log snd bindR ret].
      apply IH.
    + cbn [ret snd bindR]. apply IH.
  - now rewrite (legacy_answer_undefined _ Hc),
      (isComponentExported_undefined _ Hc).
Qed.

Lemma assign_lookup_same (key : string) (v : JsValue)
    (props : list (string * JsValue)) :
  lookup key props = v -> v <> JUndefined -> assign key v props = props.
Proof.
  intros Hlookup Hv. induction props as [| [k w] rest IH]; simpl in *.
  - now subst v.
  - destruct (k =? key) eqn:E.
    + now subst w.
    + now rewrite IH.
Qed.

Lemma legacy_extractBlock_result (componentType label : string) (verbose : bool)
    (manifest a : JsValue) (props perms : list (string * JsValue)) (total : nat) :
  defined manifest = true ->
  defined (optGet manifest "application") = true ->
  lookup componentType props = JArr [] ->
  snd (Legacy.extractBlock componentType label verbose manifest
         (JObj (("$", a) :: ("application", JObj props) :: perms), total))
  = if forallb defined
         (declaredComponents (optGet manifest "application") componentType)
    then inr (JObj (("$", a)
                    :: ("application",
                         JObj (assign componentType
                                 (JArr (selectedComponents manifest componentType))
                                 props))
                    :: perms),
              total + length (selectedComponents manifest componentType))
    else inl (TypeError "$").
Proof.
  intros Hm Happ Hacc. unfold Legacy.extractBlock.
  rewrite (get_defined _ _ Hm), bind_lift_inr.
  rewrite (get_defined _ _ Happ), bind_lift_inr.
  unfold selectedComponents, declaredComponents.
  destruct (truthy (optGet (optGet manifest "application") componentType)).
  - change (get (JObj (("$", a) :: ("application", JObj props) :: perms)) "application")
      with (@inr Failure JsValue (JObj props)).
    rewrite bind_lift_inr, snd_bind, legacy_extractLoop_result.
    destruct (forallb defined
                (_normalizeToArray
                   (optGet (optGet manifest "application") componentType)))
      eqn:Hall.
    + rewrite (extractComponents_ok _ false _ _ _ total Hacc Hall).
      cbn [snd bindR fst].
      change (set (JObj (("$", a) :: ("application", JObj props) :: perms))
                "application"
                (JObj (assign componentType
                         (JArr ([] ++ filter selects
                                  (_normalizeToArray
                                     (optGet (optGet manifest "application")
                                        componentType)))%list) props)))
        with (@inr Failure JsValue
                (JObj (("$", a)
                       :: ("application",
                            JObj (assign componentType
                                    (JArr (filter selects
                                             (_normalizeToArray
                                                (optGet (optGet manifest "application")
                                                   componentType)))) props))
                       :: perms))).
      rewrite bind_lift_inr. reflexivity.
    + now rewrite (extractComponents_fails _ false _ _ _ total Hacc Hall).
  - cbn [forallb filter length ret snd].
    rewrite (assign_lookup_same _ _ _ Hacc) by discriminate.
    now rewrite Nat.add_0_r.
Qed.

Lemma legacy_extractExportedComponents_result (manifest : JsValue)
    (verbose : bool) :
  snd (Legacy.extractExportedComponents manifest verbose)
  = if extractable manifest then inr (filteredManifest manifest)
    else inl (TypeError "$").
Proof.
  unfold Legacy.extractExportedComponents, extractable, componentTypes.
  cbn [forallb].
  unfold COMPONENT_TYPES.ACTIVITY, COMPONENT_TYPES.SERVICE,
    COMPONENT_TYPES.RECEIVER, COMPONENT_TYPES.PROVIDER.
  destruct (defined manifest) eqn:Hm; cbn [andb].
  2:{ now rewrite (get_undefined _ _ Hm). }
  rewrite !(get_defined _ _ Hm), !bind_lift_inr.
  destruct (defined (optGet manifest "application")) eqn:Happ; cbn [andb].
  2:{ now rewrite (get_undefined _ _ Happ). }
  rewrite (get_defined _ _ Happ), bind_lift_inr.
  change (preservePermissionTypes ["permission"; "uses-permission"] manifest ?t)
    with (_preserveManifestPermissions manifest t).
  rewrite (preserveManifestPermissions_ok _ _ _ Hm), bind_lift_inr.
  rewrite snd_bind.
  replace (snd (_logIfVerbose verbose "🔍 Searching for exported components..."))
    with (@inr Failure unit tt) by now destruct verbose.
  cbn [bindR].
  rewrite snd_bind, legacy_extractBlock_result by (assumption || reflexivity).
  destruct (forallb defined (declaredComponents _ "activity")); cbn [andb bindR];
    [| reflexivity].
  cbn [assign String.eqb Ascii.eqb Bool.eqb].
  rewrite snd_bind, legacy_extractBlock_result by (assumption || reflexivity).
  destruct (forallb defined (declaredComponents _ "service")); cbn [andb bindR];
    [| reflexivity].
  cbn [assign String.eqb Ascii.eqb Bool.eqb].
  rewrite snd_bind, legacy_extractBlock_result by (assumption || reflexivity).
  destruct (forallb defined (declaredComponents _ "receiver")); cbn [andb bindR];
    [| reflexivity].
  cbn [assign String.eqb Ascii.eqb Bool.eqb].
  rewrite snd_bind, legacy_extractBlock_result by (assumption || reflexivity).
  destruct (forallb defined (declaredComponents _ "provider")); cbn [andb bindR];
    [| reflexivity].
  cbn [assign String.eqb Ascii.eqb Bool.eqb].
  rewrite snd_bind.
  replace (snd (_logIfVerbose verbose
                  (foundMessage
                     (snd (JObj
                             (("$", optGet manifest "$")
                              :: ("application",
                                   JObj
                                     [("$", orElse (optGet (optGet manifest "application") "$") (JObj []));
                                      ("activity", JArr (selectedComponents manifest "activity"));
                                      ("service", JArr (selectedComponents manifest "service"));
                                      ("receiver", JArr (selectedComponents manifest "receiver"));
                                      ("provider", JArr (selectedComponents manifest "provider"))])
                              :: (permissionEntry manifest "permission"
                                  ++ permissionEntry manifest "uses-permission")%list),
                           0 + length (selectedComponents manifest "activity")
                           + length (selectedComponents manifest "service")
                           + length (selectedComponents manifest "receiver")
                           + length (selectedComponents manifest "provider"))))))
    with (@inr Failure unit tt) by now destruct verbose.
  cbn [bindR fst snd get lookup String.eqb Ascii.eqb Bool.eqb].
  rewrite bind_lift_inr.
  change (_cleanupEmptyArrays ?x)
    with (_cleanupEmptyArrays
            (JObj [ ("$", applicationAttributes manifest);
                    (COMPONENT_TYPES.ACTIVITY,
                      JArr (selectedComponents manifest COMPONENT_TYPES.ACTIVITY));
                    (COMPONENT_TYPES.SERVICE,
                      JArr (selectedComponents manifest COMPONENT_TYPES.SERVICE));
                    (COMPONENT_TYPES.RECEIVER,
                      JArr (selectedComponents manifest COMPONENT_TYPES.RECEIVER));
                    (COMPONENT_TYPES.PROVIDER,
                      JArr (selectedComponents manifest COMPONENT_TYPES.PROVIDER)) ])).
  rewrite cleanupEmptyArrays_closed, bind_lift_inr.
  cbn [set assign String.eqb Ascii.eqb Bool.eqb].
  rewrite bind_lift_inr. reflexivity.
Qed.

(** X16. The earlier [extractExportedComponents] and the refactored
    extraction return on the same manifests and return the same tree; where
    they fail, the earlier one always fails at a read of [$] (of the
    manifest, of its application or of a component). *)
Theorem legacy_extraction_agrees (manifest : JsValue) (verbose verbose' : bool) :
  snd (Legacy.extractExportedComponents manifest verbose)
  = match snd (_extractExportedComponents manifest verbose') with
    | inr tree => inr tree
    | inl _ => inl (TypeError "$")
    end.
Proof.
  rewrite legacy_extractExportedComponents_result, extractExportedComponents_result.
  now destruct (extractable manifest).
Qed.

(** ** Runs that are not verbose *)

Lemma bind_silent {A B : Type} (c : Run A) (k : A -> Run B) :
  fst c = [] -> (forall a, fst (k a) = []) -> fst (bind c k) = [].
Proof.
  destruct c as [out [e | a]]; simpl; intros -> Hk; [reflexivity |].
  specialize (Hk a). destruct (k a) as [out' r]. exact Hk.
Qed.

Lemma extractComponents_silent (componentType : string)
    (components : list JsValue) :
  forall (targetApp : JsValue) (found : nat),
    fst (extractComponents componentType false components targetApp found) = [].
Proof.
  induction components as [| c rest IH]; intros targetApp found; [reflexivity |].
  cbn [extractComponents].
  apply bind_silent; [reflexivity |]. intros [|]; [| apply IH].
  apply bind_silent; [reflexivity |]. intros targetApp'.
  apply bind_silent; [reflexivity |]. intros _. apply IH.
Qed.

Lemma extractComponentTypes_silent (types : list string) (manifest : JsValue) :
  forall (extractedManifest : JsValue) (totalFound : nat),
    fst (extractComponentTypes types false manifest extractedManifest totalFound)
    = [].
Proof.
  induction types as [| kind rest IH]; intros em total; [reflexivity |].
  cbn [extractComponentTypes].
  apply bind_silent; [reflexivity |]. intros sourceApp.
  apply bind_silent; [reflexivity |]. intros targetApp.
  apply bind_silent.
  - unfold _extractComponentType.
    apply bind_silent; [reflexivity |]. intros declared.
    destruct (negb (truthy declared)); [reflexivity |].
    apply extractComponents_silent.
  - intros r. apply bind_silent; [reflexivity |]. intros em'. apply IH.
Qed.

Lemma extractExportedComponents_silent (manifest : JsValue) :
  fst (_extractExportedComponents manifest false) = [].
Proof.
  unfold _extractExportedComponents.
  apply bind_silent; [reflexivity |]. intros em0.
  apply bind_silent; [reflexivity |]. intros em.
  apply bind_silent; [reflexivity |]. intros _.
  apply bind_silent; [apply extractComponentTypes_silent |]. intros r.
  apply bind_silent; [reflexivity |]. intros _.
  apply bind_silent; [reflexivity |]. intros targetApp.
  apply bind_silent; [reflexivity |]. intros cleaned.
  apply bind_silent; [reflexivity |]. intros em'. reflexivity.
Qed.

(** ** More on the pipeline *)

Section PipelineRuns.

Variable FileSystem : Type.
Variable readFile : FileSystem -> string -> string + string.
Variable writeFile : FileSystem -> string -> string -> string + FileSystem.
Variable parseStringPromise : string -> string + JsValue.
Variable buildObject : JsValue -> string.

(** X17. The verbosity flag changes neither the files [extract] leaves nor
    what it resolves or rejects with. *)
Theorem extract_verbose_independent (fs : FileSystem)
    (inputPath outputPath : string) :
  fst (extract FileSystem readFile writeFile parseStringPromise buildObject
         inputPath outputPath true fs)
  = fst (extract FileSystem readFile writeFile parseStringPromise buildObject
           inputPath outputPath false fs)
  /\ snd (snd (extract FileSystem readFile writeFile parseStringPromise buildObject
                 inputPath outputPath true fs))
     = snd (snd (extract FileSystem readFile writeFile parseStringPromise
                   buildObject inputPath outputPath false fs)).
Proof.
  rewrite !extract_cases. cbv zeta.
  destruct (readFile fs inputPath) as [diag | xmlContent]; [split; reflexivity |].
  destruct (parseStringPromise xmlContent) as [diag | result]; [split; reflexivity |].
  destruct (negb (truthy (optGet result "manifest"))); [split; reflexivity |].
  pose proof (extractExportedComponents_result (optGet result "manifest") true) as Ht.
  pose proof (extractExportedComponents_result (optGet result "manifest") false) as Hf.
  destruct (_extractExportedComponents (optGet result "manifest") true)
    as [outT rT].
  destruct (_extractExportedComponents (optGet result "manifest") false)
    as [outF rF].
  cbn [snd] in Ht, Hf. rewrite <- Hf in Ht. subst rT.
  destruct rF as [e | tree]; [split; reflexivity |].
  destruct (writeFile fs outputPath (buildObject tree)); split; reflexivity.
Qed.

(** X18. When the input cannot be read, [extract] rejects with the
    diagnostic of [readFile] and leaves the files alone, whatever the parser
    would do; a verbose run has printed its first line by then. *)
Theorem extract_unreadable_input (fs : FileSystem)
    (inputPath outputPath diag : string) (verbose : bool) :
  readFile fs inputPath = inl diag ->
  extract FileSystem readFile writeFile parseStringPromise buildObject
    inputPath outputPath verbose fs
  = (fs,
     ((if verbose
       then ["📖 Reading AndroidManifest.xml from: " ++ inputPath]
       else []),
      inl (IOFailure diag))).
Proof.
  intros Hread. rewrite extract_cases. cbv zeta. rewrite Hread.
  now destruct verbose.
Qed.

(** X19. When the input is read, parsed to a result with a manifest that is
    [extractable], and the output is written, [extract] resolves and leaves
    the files [writeFile] made from the serialization of the filtered
    manifest; a verbose run prints the reading line, the lines of the
    extraction and the line of the output, and any other run prints
    nothing. *)
Theorem extract_resolves (fs fs' : FileSystem)
    (inputPath outputPath xmlContent : string) (result : JsValue)
    (verbose : bool) :
  readFile fs inputPath = inr xmlContent ->
  parseStringPromise xmlContent = inr result ->
  truthy (optGet result "manifest") = true ->
  extractable (optGet result "manifest") = true ->
  writeFile fs outputPath (buildObject (filteredManifest (optGet result "manifest")))
  = inr fs' ->
  extract FileSystem readFile writeFile parseStringPromise buildObject
    inputPath outputPath verbose fs
  = (fs',
     ((if verbose
       then ("📖 Reading AndroidManifest.xml from: " ++ inputPath)
            :: (verboseLines (optGet result "manifest")
                ++ [("📝 Output written to: " ++ outputPath)%string])%list
       else []),
      inr tt)).
Proof.
  intros Hread Hparse Hroot Hex Hwrite.
  rewrite extract_cases. cbv zeta. rewrite Hread, Hparse, Hroot. cbn [negb].
  rewrite (extractExportedComponents_ok _ _ Hex), Hwrite.
  now destruct verbose.
Qed.

Lemma legacy_extract_cases (fs : FileSystem) (inputPath outputPath : string)
    (verbose : bool) :
  let opening :=
    fst (_logIfVerbose verbose
           ("📖 Reading AndroidManifest.xml from: " ++ inputPath)) in
  LegacyPipeline.extract FileSystem readFile writeFile parseStringPromise
    buildObject inputPath outputPath verbose fs =
    match readFile fs inputPath with
    | inl diag => (fs, (opening, inl (IOFailure diag)))
    | inr xmlContent =>
        match parseStringPromise xmlContent with
        | inl diag => (fs, (opening, inl (ParseFailure diag)))
        | inr result =>
            match get result "manifest" with
            | inl e => (fs, (opening, inl e))
            | inr manifest =>
                if negb (truthy manifest)
                then (fs, (opening, inl (ThrownError NO_MANIFEST_MESSAGE)))
                else
                  match Legacy.extractExportedComponents manifest verbose with
                  | (out, inl e) => (fs, ((opening ++ out)%list, inl e))
                  | (out, inr tree) =>
                      match writeFile fs outputPath (buildObject tree) with
                      | inl diag =>
                          (fs, ((opening ++ out)%list, inl (IOFailure diag)))
                      | inr fs' =>
                          (fs',
                           ((opening ++ out
                             ++ fst (_logIfVerbose verbose
                                       ("📝 Output written to: " ++ outputPath)))%list,
                            inr tt))
                      end
                  end
            end
        end
    end.
Proof.
  unfold LegacyPipeline.extract, fs_readFile, parser_parseStringPromise,
    fs_writeFile, await, sync, lift.
  destruct verbose; cbn [_logIfVerbose console_log ret fst];
    (destruct (readFile fs inputPath) as [diag | xmlContent]; [reflexivity |]);
    (destruct (parseStringPromise xmlContent) as [diag | result]; [reflexivity |]);
    (destruct (get result "manifest") as [e | manifest]; [reflexivity |]);
    (destruct (truthy manifest); cbn [negb]; [| reflexivity]);
    (destruct (Legacy.extractExportedComponents manifest _)
       as [out [e | tree]]; [rewrite ?app_nil_r; reflexivity |]);
    (destruct (writeFile fs outputPath (buildObject tree)) as [diag | fs'];
     cbn [app]; rewrite ?app_nil_r; reflexivity).
Qed.

(** X22. The earlier [extract] and the refactored one leave the same files
    on every input, and one resolves exactly when the other does. *)
Theorem legacy_extract_same_files (fs : FileSystem)
    (inputPath outputPath : string) (verbose verbose' : bool) :
  fst (LegacyPipeline.extract FileSystem readFile writeFile parseStringPromise
         buildObject inputPath outputPath verbose fs)
  = fst (extract FileSystem readFile writeFile parseStringPromise buildObject
           inputPath outputPath verbose' fs)
  /\ (snd (snd (LegacyPipeline.extract FileSystem readFile writeFile
                  parseStringPromise buildObject inputPath outputPath verbose fs))
      = inr tt
      <-> snd (snd (extract FileSystem readFile writeFile parseStringPromise
                      buildObject inputPath outputPath verbose' fs))
          = inr tt).
Proof.
  rewrite legacy_extract_cases, extract_cases. cbv zeta.
  destruct (readFile fs inputPath) as [diag | xmlContent];
    [split; [reflexivity | split; discriminate] |].
  destruct (parseStringPromise xmlContent) as [diag | result];
    [split; [reflexivity | split; discriminate] |].
  destruct (defined result) eqn:Hresult.
  2:{ rewrite (get_undefined _ _ Hresult).
      assert (Hopt : optGet result "manifest" = JUndefined)
        by (destruct result; try discriminate; reflexivity).
      rewrite Hopt. cbn [truthy negb].
      split; [reflexivity | split; discriminate]. }
  rewrite (get_defined _ _ Hresult).
  destruct (negb (truthy (optGet result "manifest")));
    [split; [reflexivity | split; discriminate] |].
  pose proof (legacy_extractExportedComponents_result
                (optGet result "manifest") verbose) as Hl.
  pose proof (extractExportedComponents_result
                (optGet result "manifest") verbose') as Hn.
  destruct (Legacy.extractExportedComponents (optGet result "manifest") verbose)
    as [outL rL].
  destruct (_extractExportedComponents (optGet result "manifest") verbose')
    as [outN rN].
  cbn [snd] in Hl, Hn. subst rL rN.
  destruct (extractable (optGet result "manifest"));
    [| split; [reflexivity | split; discriminate]].
  destruct (writeFile fs outputPath
              (buildObject (filteredManifest (optGet result "manifest"))));
    split; try reflexivity; split; intros H; try discriminate; reflexivity.
Qed.

End PipelineRuns.

Lemma extract_unreadable_input_witness :
  Toy.readFile Toy.disk "missing.xml"
  = inl "ENOENT: no such file or directory, open 'missing.xml'"
  /\ Toy.run "missing.xml" "out.xml" true
     = (Toy.disk,
        (["📖 Reading AndroidManifest.xml from: missing.xml"],
         inl (IOFailure "ENOENT: no such file or directory, open 'missing.xml'"))).
Proof.
  split; [reflexivity |].
  apply (extract_unreadable_input Toy.FileSystem Toy.readFile Toy.writeFile
           Toy.parseStringPromise Toy.buildObject Toy.disk "missing.xml" "out.xml").
  reflexivity.
Defined.

Lemma extract_resolves_witness :
  Toy.readFile Toy.disk "empty.xml" = inr "<manifest><application/></manifest>"
  /\ Toy.parseStringPromise "<manifest><application/></manifest>"
     = inr (JObj [("manifest", JObj [("application", JStr "")])])
  /\ Toy.run "empty.xml" "out.xml" true
     = (("out.xml", "<manifest components=0/>") :: Toy.disk,
        (("📖 Reading AndroidManifest.xml from: empty.xml"
          :: verboseLines (JObj [("application", JStr "")])
          ++ ["📝 Output written to: out.xml"])%list,
         inr tt)).
Proof.
  split; [reflexivity |]. split; [reflexivity |].
  apply (extract_resolves Toy.FileSystem Toy.readFile Toy.writeFile
           Toy.parseStringPromise Toy.buildObject Toy.disk
           (("out.xml", "<manifest components=0/>") :: Toy.disk)
           "empty.xml" "out.xml" "<manifest><application/></manifest>"
           (JObj [("manifest", JObj [("application", JStr "")])]) true);
    reflexivity.
Defined.

(** ** The command *)

Section CliFacts.

Variable FileSystem : Type.
Variable readFile : FileSystem -> string -> string + string.
Variable writeFile : FileSystem -> string -> string -> string + FileSystem.
Variable parseStringPromise : string -> string + JsValue.
Variable buildObject : JsValue -> string.
Variable typeErrorMessage : string -> string.

Lemma extract_silent (fs : FileSystem) (inputPath outputPath : string) :
  fst (snd (extract FileSystem readFile writeFile parseStringPromise buildObject
              inputPath outputPath false fs)) = [].
Proof.
  rewrite extract_cases. cbv zeta. cbn [_logIfVerbose ret fst app].
  destruct (readFile fs inputPath) as [diag | xmlContent]; [reflexivity |].
  destruct (parseStringPromise xmlContent) as [diag | result]; [reflexivity |].
  destruct (negb (truthy (optGet result "manifest"))); [reflexivity |].
  pose proof (extractExportedComponents_silent (optGet result "manifest")) as Hs.
  destruct (_extractExportedComponents (optGet result "manifest") false)
    as [lines [e' | tree]]; cbn [fst] in Hs; subst lines; [reflexivity |].
  destruct (writeFile fs outputPath (buildObject tree)); reflexivity.
Qed.

(** X21. Without the verbose flag ([options.verbose] undefined, or false)
    the action prints at most one line to the output stream: the line that
    names the output when [extract] resolved, and nothing when it
    rejected. *)
Theorem extractManifest_silent (fs : FileSystem) (inputPath : string)
    (options : Options.t) :
  Options.verbose options <> Some true ->
  stdout (extractManifest FileSystem readFile writeFile parseStringPromise
            buildObject typeErrorMessage inputPath options fs)
  = match exitCode (extractManifest FileSystem readFile writeFile
                      parseStringPromise buildObject typeErrorMessage
                      inputPath options fs) with
    | None => ["✅ Exported components extracted to " ++ Options.output options]
    | Some _ => []
    end.
Proof.
  intros Hflag.
  assert (Hfalse : match Options.verbose options with
                   | Some given => given
                   | None => false
                   end = false).
  { destruct (Options.verbose options) as [[|] |]; [now elim Hflag | |]; reflexivity. }
  unfold extractManifest. rewrite Hfalse.
  pose proof (extract_silent fs inputPath (Options.output options)) as Hs.
  destruct (extract FileSystem readFile writeFile parseStringPromise buildObject
              inputPath (Options.output options) false fs)
    as [fs' [out [error | []]]]; cbn [fst snd] in Hs; subst out; reflexivity.
Qed.

End CliFacts.

Lemma extractManifest_silent_witness :
  Options.verbose {| Options.output := DEFAULT_OUTPUT_FILE;
                     Options.verbose := None |} <> Some true
  /\ stdout (ToyCli.action "empty.xml"
               {| Options.output := DEFAULT_OUTPUT_FILE; Options.verbose := None |})
     = ["✅ Exported components extracted to AndroidManifestExported.xml"]
  /\ stdout (ToyCli.action "broken.xml"
               {| Options.output := DEFAULT_OUTPUT_FILE;
                  Options.verbose := Some false |})
     = [].
Proof.
  split; [discriminate |]. split.
  - apply (extractManifest_silent Toy.FileSystem Toy.readFile Toy.writeFile
             Toy.parseStringPromise Toy.buildObject ToyCli.typeErrorMessage
             Toy.disk "empty.xml"
             {| Options.output := DEFAULT_OUTPUT_FILE; Options.verbose := None |}).
    discriminate.
  - apply (extractManifest_silent Toy.FileSystem Toy.readFile Toy.writeFile
             Toy.parseStringPromise Toy.buildObject ToyCli.typeErrorMessage
             Toy.disk "broken.xml"
             {| Options.output := DEFAULT_OUTPUT_FILE;
                Options.verbose := Some false |}).
    discriminate.
Defined.

(** ** More on the parts of the extraction *)

Lemma lookup_assign_other (key other : string) (v : JsValue)
    (props : list (string * JsValue)) :
  key <> other -> lookup other (assign key v props) = lookup other props.
Proof.
  intros Hne. induction props as [| [k w] rest IH]; simpl.
  - destruct (key =? other) eqn:E; [| reflexivity].
    apply String.eqb_eq in E. contradiction.
  - destruct (k =? key) eqn:Ek; simpl.
    + apply String.eqb_eq in Ek. subst k.
      destruct (key =? other) eqn:E; [| reflexivity].
      apply String.eqb_eq in E. contradiction.
    + destruct (k =? other); [reflexivity | exact IH].
Qed.

(** X23. On a source that is there and a target object,
    [_preserveManifestPermissions] does not raise; it leaves every key of
    the target other than [permission] and [uses-permission] as it was, and
    under each of these two it puts the array of the source's declarations
    (a single declaration becomes an array of one) when the source entry is
    truthy, and leaves the target as it was when it is not. *)
Theorem preserveManifestPermissions_on_objects (source : JsValue)
    (props : list (string * JsValue)) :
  defined source = true ->
  exists props',
    _preserveManifestPermissions source (JObj props) = inr (JObj props')
    /\ (forall key,
           key <> "permission" -> key <> "uses-permission" ->
           lookup key props' = lookup key props)
    /\ (forall permissionType,
           In permissionType ["permission"; "uses-permission"] ->
           lookup permissionType props'
           = if truthy (optGet source permissionType)
             then JArr (_normalizeToArray (optGet source permissionType))
             else lookup permissionType props).
Proof.
  intros Hs. unfold _preserveManifestPermissions. cbn [preservePermissionTypes].
  rewrite !(get_defined _ _ Hs). cbn [bindR].
  assert (Hne : "permission" <> "uses-permission") by discriminate.
  assert (Hne' : "uses-permission" <> "permission") by discriminate.
  destruct (truthy (optGet source "permission")) eqn:Hp;
    destruct (truthy (optGet source "uses-permission")) eqn:Hu;
    cbn [set bindR]; eexists; (split; [reflexivity |]); split.
  all: try (intros key H1 H2;
            rewrite ?lookup_assign_other by (intros Heq; subst key; contradiction);
            reflexivity).
  all: intros pt [<- | [<- | []]]; rewrite ?Hp, ?Hu;
    rewrite ?lookup_assign, ?(lookup_assign_other _ _ _ _ Hne'),
      ?(lookup_assign_other _ _ _ _ Hne), ?lookup_assign;
    reflexivity.
Qed.

Lemma preserveManifestPermissions_on_objects_witness :
  defined scenarioManifest = true
  /\ exists props',
       _preserveManifestPermissions scenarioManifest
         (JObj [ ("permission", JStr "kept?"); ("other", JStr "kept") ])
       = inr (JObj props')
       /\ lookup "other" props' = JStr "kept"
       /\ lookup "permission" props'
          = JArr [ namedElement "com.example.permission.READ_DATA" ].
Proof.
  split; [reflexivity |].
  destruct (preserveManifestPermissions_on_objects scenarioManifest
              [ ("permission", JStr "kept?"); ("other", JStr "kept") ] eq_refl)
    as (props' & Hrun & Hother & Hperm).
  exists props'. split; [exact Hrun |]. split.
  - rewrite (Hother "other"); [reflexivity | discriminate | discriminate].
  - rewrite (Hperm "permission"); [reflexivity | now left].
Defined.

(** X24. [_extractComponentType] on a source application that is there, a
    target object whose entry for the kind is an array, and components that
    are all there: it returns the target with the selected components
    appended to that array, after the items the array had and in the order
    of the source, and the number of components it appended; with no
    component to visit the target is unchanged and the number is 0. *)
Theorem extractComponentType_appends (sourceApp : JsValue)
    (props : list (string * JsValue)) (componentType : string)
    (acc : list JsValue) (verbose : bool) :
  defined sourceApp = true ->
  lookup componentType props = JArr acc ->
  forallb defined (declaredComponents sourceApp componentType) = true ->
  snd (_extractComponentType sourceApp (JObj props) componentType verbose)
  = inr (JObj (assign componentType
                 (JArr (acc ++ filter selects
                                 (declaredComponents sourceApp componentType))%list)
                 props),
         length (filter selects (declaredComponents sourceApp componentType)))
  /\ (declaredComponents sourceApp componentType = [] ->
      snd (_extractComponentType sourceApp (JObj props) componentType verbose)
      = inr (JObj props, 0)).
Proof.
  intros Hs Hacc Hall.
  assert (Hrun :
    snd (_extractComponentType sourceApp (JObj props) componentType verbose)
    = inr (JObj (assign componentType
                   (JArr (acc ++ filter selects
                                   (declaredComponents sourceApp componentType))%list)
                   props),
           length (filter selects (declaredComponents sourceApp componentType)))).
  { unfold _extractComponentType.
    rewrite (get_defined _ _ Hs), bind_lift_inr.
    unfold declaredComponents in *.
    destruct (truthy (optGet sourceApp componentType)); cbn [negb].
    - now rewrite (extractComponents_ok _ verbose _ _ _ 0 Hacc Hall).
    - cbn [filter length ret snd].
      now rewrite app_nil_r, (assign_lookup_same _ _ _ Hacc) by discriminate. }
  split; [exact Hrun |].
  intros Hnone. rewrite Hrun, Hnone. cbn [filter length].
  rewrite app_nil_r, (assign_lookup_same _ _ _ Hacc) by discriminate.
  reflexivity.
Qed.

Lemma extractComponentType_appends_witness :
  defined (optGet orderingManifest "application") = true
  /\ lookup "activity" [ ("activity", JArr [ JStr "first" ]) ] = JArr [ JStr "first" ]
  /\ forallb defined
       (declaredComponents (optGet orderingManifest "application") "activity")
     = true
  /\ snd (_extractComponentType (optGet orderingManifest "application")
            (JObj [ ("activity", JArr [ JStr "first" ]) ]) "activity" true)
     = inr (JObj [ ("activity",
                     JArr [ JStr "first";
                            component ".A" "true" [];
                            JObj [ ("$", attributes [ (ANDROID_ATTRIBUTES.NAME, ".A3") ]);
                                   ("intent-filter",
                                     intentFilter "android.intent.action.SEND") ] ]) ],
            2).
Proof.
  split; [reflexivity |]. split; [reflexivity |]. split; [reflexivity |].
  exact (proj1 (extractComponentType_appends
                  (optGet orderingManifest "application")
                  [ ("activity", JArr [ JStr "first" ]) ] "activity"
                  [ JStr "first" ] true eq_refl eq_refl eq_refl)).
Defined.

(** ** Reading the manifest *)

Section ParseFacts.

Variable FileSystem : Type.
Variable readFile : FileSystem -> string -> string + string.
Variable writeFile : FileSystem -> string -> string -> string + FileSystem.
Variable parseStringPromise : string -> string + JsValue.
Variable buildObject : JsValue -> string.

(** X25. [_parseManifestFile] leaves the files alone and prints nothing,
    whether it resolves or rejects; and what it resolves with is the
    [manifest] entry of the parsed result and is truthy, so it is neither
    undefined nor null nor the empty string of an empty [manifest]
    element. *)
Theorem parseManifestFile_resolves_with_manifest (fs : FileSystem)
    (inputPath : string) :
  fst (_parseManifestFile FileSystem readFile parseStringPromise inputPath fs) = fs
  /\ fst (snd (_parseManifestFile FileSystem readFile parseStringPromise
                 inputPath fs)) = []
  /\ forall manifest,
       snd (snd (_parseManifestFile FileSystem readFile parseStringPromise
                   inputPath fs)) = inr manifest ->
       truthy manifest = true
       /\ defined manifest = true
       /\ exists xmlContent result,
            readFile fs inputPath = inr xmlContent
            /\ parseStringPromise xmlContent = inr result
            /\ manifest = optGet result "manifest".
Proof.
  unfold _parseManifestFile, fs_readFile, parser_parseStringPromise, await,
    sync, lift.
  destruct (readFile fs inputPath) as [diag | xmlContent];
    [repeat split; discriminate |].
  destruct (parseStringPromise xmlContent) as [diag | result] eqn:Hparse;
    [repeat split; discriminate |].
  destruct (truthy (optGet result "manifest")) eqn:Ht; cbn [negb];
    [| repeat split; discriminate].
  assert (Hget : get result "manifest" = inr (optGet result "manifest"))
    by (apply get_defined; destruct result; try discriminate; reflexivity).
  rewrite Hget. cbn [fst snd app].
  split; [reflexivity |]. split; [reflexivity |].
  intros manifest H. injection H as <-.
  split; [exact Ht |].
  split.
  { revert Ht. destruct (optGet result "manifest"); intros Ht;
      try discriminate; reflexivity. }
  exists xmlContent, result. repeat split. exact Hparse.
Qed.

(** X26. When the parser resolves to undefined or null, the earlier
    [extract] rejects with the TypeError of reading [manifest] from it, and
    the refactored one, which reads [result?.manifest], rejects with the
    error of the missing manifest root; both leave the files alone. *)
Theorem null_result_rejections (fs : FileSystem)
    (inputPath outputPath xmlContent : string) (result : JsValue)
    (verbose : bool) :
  readFile fs inputPath = inr xmlContent ->
  parseStringPromise xmlContent = inr result ->
  defined result = false ->
  (exists out,
      LegacyPipeline.extract FileSystem readFile writeFile parseStringPromise
        buildObject inputPath outputPath verbose fs
      = (fs, (out, inl (TypeError "manifest"))))
  /\ (exists out,
         extract FileSystem readFile writeFile parseStringPromise buildObject
           inputPath outputPath verbose fs
         = (fs, (out, inl (ThrownError NO_MANIFEST_MESSAGE)))).
Proof.
  intros Hread Hparse Hresult. split.
  - rewrite legacy_extract_cases. cbv zeta.
    rewrite Hread, Hparse, (get_undefined _ _ Hresult). eexists; reflexivity.
  - rewrite extract_cases. cbv zeta. rewrite Hread, Hparse.
    assert (Hopt : optGet result "manifest" = JUndefined)
      by (destruct result; try discriminate; reflexivity).
    rewrite Hopt. eexists; reflexivity.
Qed.

End ParseFacts.

Lemma parseManifestFile_resolves_with_manifest_witness :
  snd (snd (_parseManifestFile Toy.FileSystem Toy.readFile Toy.parseStringPromise
              "empty.xml" Toy.disk))
  = inr (JObj [("application", JStr "")])
  /\ truthy (JObj [("application", JStr "")]) = true.
Proof.
  split; [reflexivity |].
  exact (proj1 (proj2 (proj2 (parseManifestFile_resolves_with_manifest
                                Toy.FileSystem Toy.readFile Toy.parseStringPromise
                                Toy.disk "empty.xml"))
                  (JObj [("application", JStr "")]) eq_refl)).
Defined.

Lemma null_result_rejections_witness :
  Toy.readFile Toy.disk "blank.xml" = inr ""
  /\ Toy.parseStringPromise "" = inr JNull
  /\ defined JNull = false
  /\ (exists out,
         ToyCli.legacyRun "blank.xml" "out.xml" true
         = (Toy.disk, (out, inl (TypeError "manifest"))))
  /\ (exists out,
         Toy.run "blank.xml" "out.xml" true
         = (Toy.disk, (out, inl (ThrownError NO_MANIFEST_MESSAGE)))).
Proof.
  split; [reflexivity |]. split; [reflexivity |]. split; [reflexivity |].
  exact (null_result_rejections Toy.FileSystem Toy.readFile Toy.writeFile
           Toy.parseStringPromise Toy.buildObject Toy.disk "blank.xml" "out.xml"
           "" JNull true eq_refl eq_refl eq_refl).
Defined.

Lemma legacy_extract_same_files_witness :
  snd (snd (ToyCli.legacyRun "empty.xml" "out.xml" true)) = inr tt
  /\ fst (ToyCli.legacyRun "empty.xml" "out.xml" true)
     = fst (Toy.run "empty.xml" "out.xml" false)
  /\ snd (snd (Toy.run "empty.xml" "out.xml" false)) = inr tt.
Proof.
  split; [reflexivity |].
  split.
  - exact (proj1 (legacy_extract_same_files Toy.FileSystem Toy.readFile
                    Toy.writeFile Toy.parseStringPromise Toy.buildObject
                    Toy.disk "empty.xml" "out.xml" true false)).
  - exact (proj1 (proj2 (legacy_extract_same_files Toy.FileSystem Toy.readFile
                           Toy.writeFile Toy.parseStringPromise Toy.buildObject
                           Toy.disk "empty.xml" "out.xml" true false))
             eq_refl).
Defined.
